(** * OBLISK symbolic planner: a shallow embedding of
      [src/core/symbolic_planner.py] and the properties of its planner.

    The embedding follows the Python module function by function:
    - a [Set[str]] state is a [gset string];
    - the action registry [self.actions] is a Python [dict], whose iteration
      order is the order in which keys were first inserted: it is an
      association list with in-place overwrite ([dict_set]);
    - the plan store [self.plans] is a [gmap] from plan identifiers to plan
      records, and a plan record is itself the Python [dict] that
      [create_plan] builds, a [gmap] from field names to field values;
    - [constraints] is a [Dict[str, Any]]: a [gmap] from keys to dynamically
      typed values, so that [range(max_depth)] can raise [TypeError];
    - methods that mutate [self] return the new planner next to their result;
    - logging is not modelled. *)

From Stdlib Require Import ZArith QArith_base.
From stdpp Require Import gmap strings list fin_maps pretty.

Open Scope string_scope.
Open Scope list_scope.

(** ** Data model *)

(** [class PlanStatus(Enum)]. *)
Inductive PlanStatus : Type :=
  | PENDING
  | IN_PROGRESS
  | COMPLETED
  | FAILED.

(** The values a [Dict[str, Any]] of constraints or parameters may hold. *)
Inductive pyval : Type :=
  | PyNone
  | PyBool (b : bool)
  | PyInt (z : Z)
  | PyFloat (q : Q)
  | PyStr (s : string).

(** [@dataclass class Action].  [cost] is a Python float; the planner never
    computes with it, it is carried as a rational. *)
Record Action : Type := mkAction {
  name : string;
  parameters : list (string * pyval);
  preconditions : list string;
  effects : list string;
  cost : Q
}.

(** [@dataclass class Goal]. *)
Record Goal : Type := mkGoal {
  description : string;
  conditions : list string;
  priority : Z
}.

Abbreviation State := (gset string).

(** The values stored under the keys of a plan record. *)
Inductive plan_value : Type :=
  | VStr (s : string)
  | VGoal (g : Goal)
  | VState (s : State)
  | VActions (l : list Action)
  | VStatus (st : PlanStatus)
  | VInt (z : Z).

Abbreviation Plan := (gmap string plan_value).

(** The two attributes of a [SymbolicPlanner] instance. *)
Record SymbolicPlanner : Type := mkPlanner {
  actions : list (string * Action);
  plans : gmap string Plan
}.

(** [SymbolicPlanner.__init__]. *)
Definition init : SymbolicPlanner := mkPlanner [] ∅.

(** ** Python dictionaries that remember insertion order *)

(** [d[k] = v]: overwrite in place when [k] is present, append otherwise. *)
Fixpoint dict_set {V : Type} (k : string) (v : V) (d : list (string * V))
  : list (string * V) :=
  match d with
  | [] => [(k, v)]
  | (k', v') :: d' =>
      if String.eqb k k' then (k, v) :: d' else (k', v') :: dict_set k v d'
  end.

(** [d.get(k)]. *)
Fixpoint dict_get {V : Type} (k : string) (d : list (string * V)) : option V :=
  match d with
  | [] => None
  | (k', v') :: d' => if String.eqb k k' then Some v' else dict_get k d'
  end.

(** [d.keys()] and [d.values()], in iteration order. *)
Definition dict_keys {V : Type} (d : list (string * V)) : list string := map fst d.
Definition dict_values {V : Type} (d : list (string * V)) : list V := map snd d.

(** ** Exceptions *)

Inductive exn : Type := TypeError.

Inductive outcome (A : Type) : Type :=
  | Returned (a : A)
  | Raised (e : exn).
Arguments Returned {A} a.
Arguments Raised {A} e.

(** The number of iterations of [for _ in range(v)]; [bool] is a subclass of
    [int], anything else that a constraint may hold is refused. *)
Definition py_range (v : pyval) : outcome nat :=
  match v with
  | PyInt z => Returned (Z.to_nat z)
  | PyBool b => Returned (if b then 1 else 0)%nat
  | PyNone | PyFloat _ | PyStr _ => Raised TypeError
  end.

(** ** Strings *)

(** [s[n:]]. *)
Fixpoint str_from (n : nat) (s : string) : string :=
  match n, s with
  | O, _ => s
  | S n', String _ s' => str_from n' s'
  | S _, EmptyString => EmptyString
  end.

(** [s.startswith("NOT_")]. *)
Definition is_negative (effect : string) : bool := String.prefix "NOT_" effect.

(** ** The planner's methods *)

(** [register_action]: no check is made, the call always returns [True]. *)
Definition register_action (self : SymbolicPlanner) (action_id : string)
    (action : Action) : bool * SymbolicPlanner :=
  (true, mkPlanner (dict_set action_id action (actions self)) (plans self)).

(** [_check_goal]. *)
Definition check_goal (goal : Goal) (state : State) : bool :=
  forallb (fun condition => bool_decide (condition ∈ state)) (conditions goal).

(** The test of [_get_applicable_actions] on one action. *)
Definition applicable (state : State) (action : Action) : bool :=
  forallb (fun precond => bool_decide (precond ∈ state)) (preconditions action).

(** [_get_applicable_actions]: iterates [self.actions.values()]. *)
Definition get_applicable_actions (self : SymbolicPlanner) (state : State)
  : list Action :=
  filter (fun action => applicable state action = true) (dict_values (actions self)).

(** One turn of the loop of [_apply_action]. *)
Definition apply_effect (new_state : State) (effect : string) : State :=
  if is_negative effect
  then new_state ∖ {[ str_from 4 effect ]}
  else new_state ∪ {[ effect ]}.

(** [_apply_action]. *)
Definition apply_action (action : Action) (state : State) : State :=
  fold_left apply_effect (effects action) state.

(** How the [for] loop of [_forward_search] was left. *)
Inductive loop_exit : Type :=
  | GoalInLoop    (* [return plan] inside the loop *)
  | NoApplicable  (* [break] *)
  | RangeDone.    (* the range ran out *)

Record loop_result : Type := mkLoop {
  lr_exit : loop_exit;
  lr_plan : list Action;
  lr_state : State;
  lr_expansions : nat   (* ghost: how many times an action was applied *)
}.

(** The loop of [_forward_search], [n] iterations left. *)
Fixpoint search_loop (self : SymbolicPlanner) (goal : Goal) (n : nat)
    (plan : list Action) (current_state : State) (k : nat) : loop_result :=
  match n with
  | O => mkLoop RangeDone plan current_state k
  | S n' =>
      if check_goal goal current_state
      then mkLoop GoalInLoop plan current_state k
      else
        match get_applicable_actions self current_state with
        | [] => mkLoop NoApplicable plan current_state k
        | action :: _ =>
            search_loop self goal n' (plan ++ [action])
              (apply_action action current_state) (S k)
        end
  end.

(** What [_forward_search] returns once the loop is left. *)
Definition search_result (goal : Goal) (r : loop_result) : option (list Action) :=
  match lr_exit r with
  | GoalInLoop => Some (lr_plan r)
  | NoApplicable | RangeDone =>
      if check_goal goal (lr_state r) then Some (lr_plan r) else None
  end.

(** [_forward_search] once [range(max_depth)] is known to have [n] elements. *)
Definition search_from (self : SymbolicPlanner) (goal : Goal) (state : State)
    (n : nat) : loop_result :=
  search_loop self goal n [] state 0.

(** [constraints.get("max_depth", 10)]. *)
Definition max_depth_of (constraints : gmap string pyval) : pyval :=
  default (PyInt 10) (constraints !! "max_depth").

(** [_forward_search]. *)
Definition forward_search (self : SymbolicPlanner) (goal : Goal) (state : State)
    (constraints : gmap string pyval) : outcome (option (list Action)) :=
  match py_range (max_depth_of constraints) with
  | Raised e => Raised e
  | Returned n => Returned (search_result goal (search_from self goal state n))
  end.

(** The record that [create_plan] stores.  It holds the goal and the state
    that the caller passed, not copies of them. *)
Definition new_plan (plan_id : string) (goal : Goal) (initial_state : State)
    (action_sequence : list Action) : Plan :=
  <["current_step" := VInt 0]>
  (<["status" := VStatus PENDING]>
  (<["actions" := VActions action_sequence]>
  (<["initial_state" := VState initial_state]>
  (<["goal" := VGoal goal]>
  (<["plan_id" := VStr plan_id]> ∅))))).

(** [create_plan].  [uuid_hex] stands for [uuid.uuid4().hex[:12]];
    [constraints or {}] turns an absent argument into the empty dictionary. *)
Definition create_plan (self : SymbolicPlanner) (goal : Goal)
    (initial_state : State) (constraints : option (gmap string pyval))
    (uuid_hex : string) : outcome (option string * SymbolicPlanner) :=
  let plan_id := "plan-" +:+ uuid_hex in
  match forward_search self goal initial_state (default ∅ constraints) with
  | Raised e => Raised e
  | Returned None => Returned (None, self)
  | Returned (Some action_sequence) =>
      Returned (Some plan_id,
                mkPlanner (actions self)
                  (<[plan_id := new_plan plan_id goal initial_state action_sequence]>
                     (plans self)))
  end.

(** [execute_plan]: the stored record is updated under the key ["status"]. *)
Definition execute_plan (self : SymbolicPlanner) (plan_id : string)
  : bool * SymbolicPlanner :=
  match plans self !! plan_id with
  | None => (false, self)
  | Some plan =>
      (true, mkPlanner (actions self)
               (<[plan_id := <["status" := VStatus IN_PROGRESS]> plan]> (plans self)))
  end.

(** [get_plan]. *)
Definition get_plan (self : SymbolicPlanner) (plan_id : string) : option Plan :=
  plans self !! plan_id.

(** ** Running a plan and registering in sequence *)

(** Applying the actions of a sequence one after the other, each with
    [_apply_action]. *)
Definition run_actions (acts : list Action) (state : State) : State :=
  fold_left (fun s a => apply_action a s) acts state.

(** [register_action] called for each pair of the list, in order. *)
Definition register_all (self : SymbolicPlanner) (regs : list (string * Action))
  : SymbolicPlanner :=
  fold_left (fun p r => (register_action p r.1 r.2).2) regs self.

(** The identifiers of a sequence of registrations in the order in which
    each one first occurs. *)
Definition note_key (seen : list string) (k : string) : list string :=
  if bool_decide (k ∈ seen) then seen else seen ++ [k].

Definition first_seen (ks : list string) : list string :=
  fold_left note_key ks [].

(** The status stored for a plan identifier, when there is one. *)
Definition stored_status (self : SymbolicPlanner) (plan_id : string)
  : option plan_value :=
  plan ← plans self !! plan_id; plan !! "status".

(** What the caller of [create_plan] receives. *)
Definition returned_value {A S : Type} (o : outcome (A * S)) : outcome A :=
  match o with
  | Returned (a, _) => Returned a
  | Raised e => Raised e
  end.

(** The effect string that removes a fact. *)
Definition negated (fact : string) : string := "NOT_" +:+ fact.

(** ** Vocabulary of the specification

    None of this is in the source; it only serves to state what the
    specification asks for. *)

(** The definitions that the specification asks [register] to refuse: an
    effect list that holds both a fact and its removal, or a negative cost. *)
Definition spec_conflicting_effects (action : Action) : bool :=
  existsb (fun e => negb (is_negative e)
                    && bool_decide (negated e ∈ effects action))
          (effects action).

Definition spec_invalid_action (action : Action) : bool :=
  spec_conflicting_effects action || negb (Qle_bool 0 (cost action)).

(** The failure kinds that the specification names. *)
Inductive spec_failure : Type := NoPlanFound | Exhausted | Timeout.

(** ** Scenario data *)

Definition pickup : Action :=
  mkAction "pickup" [] ["hand_empty"; "block_on_table"]
    ["holding_block"; "NOT_hand_empty"] 1.

Definition blocks : SymbolicPlanner := (register_action init "pickup" pickup).2.

Definition hold : Goal := mkGoal "hold the block" ["holding_block"] 1.

Definition blocks_start : State := {[ "hand_empty"; "block_on_table" ]}.

Definition blocks_planned : SymbolicPlanner :=
  mkPlanner (actions blocks)
    {[ "plan-0123456789ab" :=
         new_plan "plan-0123456789ab" hold blocks_start [pickup] ]}.

(** The plan of the blocks scenario once [execute_plan] was called on it. *)
Definition blocks_running : SymbolicPlanner :=
  (execute_plan blocks_planned "plan-0123456789ab").2.

(** The same plan after the execution environment, which holds the record
    through [get_plan], has marked it completed. *)
Definition blocks_completed : SymbolicPlanner :=
  mkPlanner (actions blocks)
    {[ "plan-0123456789ab" :=
         <["status" := VStatus COMPLETED]>
           (new_plan "plan-0123456789ab" hold blocks_start [pickup]) ]}.

Definition hand_free : Goal := mkGoal "nothing to do" ["hand_empty"] 1.

Definition no_depth : gmap string pyval := {[ "max_depth" := PyInt 0 ]}.

Definition idle_plan : Plan :=
  new_plan "plan-0123456789ab" hand_free blocks_start [].

Definition idle_planned : SymbolicPlanner :=
  mkPlanner (actions blocks) {[ "plan-0123456789ab" := idle_plan ]}.

Definition hand_full : Goal := mkGoal "hand in use" ["NOT_hand_empty"] 1.

(** Adds and removes the same fact. *)
Definition self_defeating : Action :=
  mkAction "self_defeating" [] [] ["x"; "NOT_x"] 1.

(** Costs less than nothing. *)
Definition refund : Action := mkAction "refund" [] [] ["paid"] (-1).

Definition expensive : Action := mkAction "expensive" [] [] ["done"] 5.

Definition cheap : Action := mkAction "cheap" [] [] ["done"] 1.

Definition two_prices : SymbolicPlanner :=
  (register_action (register_action init "expensive" expensive).2 "cheap" cheap).2.

Definition finish : Goal := mkGoal "finish" ["done"] 1.

Definition lowest_cost : gmap string pyval :=
  {[ "selection_policy" := PyStr "LOWEST_COST" ]}.

Definition flip_on : Action := mkAction "flip_on" [] ["off"] ["on"; "NOT_off"] 1.

Definition flip_off : Action := mkAction "flip_off" [] ["on"] ["off"; "NOT_on"] 1.

(** A domain with a cycle: the two actions undo each other. *)
Definition switch : SymbolicPlanner :=
  register_all init [("flip_on", flip_on); ("flip_off", flip_off)].

Definition want_x : Goal := mkGoal "out of reach" ["x"] 1.

Definition add_then_remove : Action :=
  mkAction "add_then_remove" [] [] ["x"; "NOT_x"] 1.

Definition remove_then_add : Action :=
  mkAction "remove_then_add" [] [] ["NOT_x"; "x"] 1.

(** ** The remaining methods *)

(** A subscript on a dictionary that lacks the key. *)
Inductive lookup_outcome (A : Type) : Type :=
  | Found (a : A)
  | KeyError (key : string).
Arguments Found {A} a.
Arguments KeyError {A} key.

(** [get_plan_status]: [plan["status"] if plan else None], where a
    dictionary counts as false when it has no entry. *)
Definition get_plan_status (self : SymbolicPlanner) (plan_id : string)
  : lookup_outcome (option plan_value) :=
  match plans self !! plan_id with
  | None => Found None
  | Some plan =>
      match size plan with
      | O => Found None
      | S _ =>
          match plan !! "status" with
          | Some v => Found (Some v)
          | None => KeyError "status"
          end
      end
  end.

(** [__repr__]: the two lengths printed in decimal. *)
Definition repr (self : SymbolicPlanner) : string :=
  "SymbolicPlanner(actions=" +:+ pretty (length (actions self))
  +:+ ", plans=" +:+ pretty (size (plans self)) +:+ ")".

(** ** Paths of the search and histories of the planner *)

(** The sequences of actions that the loop of [_forward_search] can build
    from a state: at each step the goal is not yet met and the action is the
    first of the applicable ones. *)
Fixpoint greedy_path (self : SymbolicPlanner) (goal : Goal) (cur : State)
    (acts : list Action) : Prop :=
  match acts with
  | [] => True
  | a :: rest =>
      check_goal goal cur = false
      /\ head (get_applicable_actions self cur) = Some a
      /\ greedy_path self goal (apply_action a cur) rest
  end.

(** What the effect list says last about a fact: [Some true] when the last
    effect that names it adds it, [Some false] when it removes it, [None]
    when no effect names it. *)
Fixpoint last_word (es : list string) (f : string) : option bool :=
  match es with
  | [] => None
  | e :: es' =>
      match last_word es' f with
      | Some b => Some b
      | None =>
          if is_negative e
          then (if bool_decide (str_from 4 e = f) then Some false else None)
          else (if bool_decide (e = f) then Some true else None)
      end
  end.

(** The planners that calls of the public methods produce from a new one. *)
Inductive reachable : SymbolicPlanner -> Prop :=
  | reach_init : reachable init
  | reach_register self action_id action :
      reachable self -> reachable (register_action self action_id action).2
  | reach_create self goal initial_state constraints uuid_hex r self' :
      reachable self ->
      create_plan self goal initial_state constraints uuid_hex = Returned (r, self') ->
      reachable self'
  | reach_execute self plan_id :
      reachable self -> reachable (execute_plan self plan_id).2.

(** A stored record as [create_plan] and [execute_plan] leave it. *)
Definition plan_well_formed (plan_id : string) (plan : Plan) : Prop :=
  exists (goal : Goal) (initial_state : State) (acts : list Action)
         (st : PlanStatus),
    plan !! "plan_id" = Some (VStr plan_id)
    /\ plan !! "goal" = Some (VGoal goal)
    /\ plan !! "initial_state" = Some (VState initial_state)
    /\ plan !! "actions" = Some (VActions acts)
    /\ plan !! "status" = Some (VStatus st)
    /\ (st = PENDING \/ st = IN_PROGRESS)
    /\ plan !! "current_step" = Some (VInt 0)
    /\ check_goal goal (run_actions acts initial_state) = true.



(** What holds of every planner that the methods produce. *)
Definition planner_ok (self : SymbolicPlanner) : Prop :=
  NoDup (dict_keys (actions self))
  /\ forall plan_id plan,
       get_plan self plan_id = Some plan -> plan_well_formed plan_id plan.

(** ** Objects that the caller shares with the planner

    [create_plan] stores the caller's own [Goal] and state set in the record,
    and the registry and the stored action lists hold the caller's [Action]
    objects: the caller can change the contents of all of these between two
    calls.  The record dictionary itself and the list of actions are built by
    the planner. *)

(** The entries of a record that hold shared objects. *)
Definition shared_keys : list string := ["goal"; "initial_state"; "actions"].

(** What a change of the shared objects can do to a record: the entries
    under [shared_keys] stay a goal, a state and a list of as many actions,
    with any contents; every other entry is as before. *)
Definition record_shared (plan plan' : Plan) : Prop :=
  dom plan' = dom plan
  /\ (forall key, key ∉ shared_keys -> plan' !! key = plan !! key)
  /\ (forall g, plan !! "goal" = Some (VGoal g) ->
                exists g', plan' !! "goal" = Some (VGoal g'))
  /\ (forall s, plan !! "initial_state" = Some (VState s) ->
                exists s', plan' !! "initial_state" = Some (VState s'))
  /\ (forall acts, plan !! "actions" = Some (VActions acts) ->
                   exists acts', plan' !! "actions" = Some (VActions acts')
                                 /\ length acts' = length acts).

(** What it can do to a planner: the same identifiers are registered and
    stored, the registered actions may have any contents, and each record is
    changed as above. *)
Definition caller_mutation (self self' : SymbolicPlanner) : Prop :=
  dict_keys (actions self') = dict_keys (actions self)
  /\ dom (plans self') = dom (plans self)
  /\ forall plan_id plan plan',
       plans self !! plan_id = Some plan ->
       plans self' !! plan_id = Some plan' ->
       record_shared plan plan'.

(** The planners that calls of the public methods produce from a new one
    while the caller changes the objects it shares with the planner. *)
Inductive reachable_sharing : SymbolicPlanner -> Prop :=
  | share_init : reachable_sharing init
  | share_register self action_id action :
      reachable_sharing self ->
      reachable_sharing (register_action self action_id action).2
  | share_create self goal initial_state constraints uuid_hex r self' :
      reachable_sharing self ->
      create_plan self goal initial_state constraints uuid_hex = Returned (r, self') ->
      reachable_sharing self'
  | share_execute self plan_id :
      reachable_sharing self -> reachable_sharing (execute_plan self plan_id).2
  | share_mutate self self' :
      reachable_sharing self -> caller_mutation self self' ->
      reachable_sharing self'.

(** What stays true of a stored record under all of these. *)
Definition record_complete (plan_id : string) (plan : Plan) : Prop :=
  plan !! "plan_id" = Some (VStr plan_id)
  /\ (exists st, plan !! "status" = Some (VStatus st)
                 /\ (st = PENDING \/ st = IN_PROGRESS))
  /\ plan !! "current_step" = Some (VInt 0)
  /\ (exists (goal : Goal) (initial_state : State) (acts : list Action),
        plan !! "goal" = Some (VGoal goal)
        /\ plan !! "initial_state" = Some (VState initial_state)
        /\ plan !! "actions" = Some (VActions acts))
  /\ dom plan = {[ "plan_id"; "goal"; "initial_state"; "actions"; "status";
                   "current_step" ]}.

(** The goal of the blocks scenario after the caller has appended a
    condition to it. *)
Definition hold_more : Goal := mkGoal "hold the block" ["holding_block"; "z"] 1.

(** The stored plan of the blocks scenario after the caller has appended
    that condition to its goal object and emptied its state set. *)
Definition blocks_drifted : SymbolicPlanner :=
  mkPlanner (actions blocks)
    {[ "plan-0123456789ab" :=
         <["initial_state" := VState ∅]>
           (<["goal" := VGoal hold_more]>
              (new_plan "plan-0123456789ab" hold blocks_start [pickup])) ]}.

(** The record that the blocks scenario stores. *)
Definition blocks_record : Plan :=
  new_plan "plan-0123456789ab" hold blocks_start [pickup].

(** An action without preconditions that leads nowhere. *)
Definition noise : Action := mkAction "noise" [] [] ["n"] 1.

Definition three_prices : SymbolicPlanner :=
  register_all init [("noise", noise); ("expensive", expensive); ("cheap", cheap)].

(** * Properties *)

Example scenario_A :
  forward_search blocks hold blocks_start ∅ = Returned (Some [pickup]).
Proof. vm_compute. reflexivity. Qed.

Example scenario_B : create_plan init want_x ∅ None "a" = Returned (None, init).
Proof. vm_compute. reflexivity. Qed.

(** ** Facts about the goal test *)

Lemma check_goal_spec (goal : Goal) (state : State) :
  check_goal goal state = true <-> (forall c, c ∈ conditions goal -> c ∈ state).
Proof.
  unfold check_goal. rewrite forallb_forall. split.
  - intros H c Hc. apply list_elem_of_In in Hc.
    specialize (H c Hc). by apply bool_decide_eq_true in H.
  - intros H c Hc. apply bool_decide_eq_true, H. by apply list_elem_of_In.
Qed.

Lemma applicable_spec (state : State) (action : Action) :
  applicable state action = true
  <-> (forall p, p ∈ preconditions action -> p ∈ state).
Proof.
  unfold applicable. rewrite forallb_forall. split.
  - intros H c Hc. apply list_elem_of_In in Hc.
    specialize (H c Hc). by apply bool_decide_eq_true in H.
  - intros H c Hc. apply bool_decide_eq_true, H. by apply list_elem_of_In.
Qed.

(** ** The loop invariant of the search *)

(** The loop only ever appends to the plan; the state it holds is the one the
    appended actions lead to, the counter counts them, and a return from
    inside the loop happens on a state that meets the goal. *)
Lemma search_loop_inv (self : SymbolicPlanner) (goal : Goal) (n : nat) :
  forall (plan : list Action) (cur : State) (k : nat),
    let r := search_loop self goal n plan cur k in
    exists added,
      lr_plan r = plan ++ added
      /\ lr_state r = run_actions added cur
      /\ lr_expansions r = (k + length added)%nat
      /\ (length added <= n)%nat
      /\ Forall (fun a => a ∈ dict_values (actions self)) added
      /\ (lr_exit r = GoalInLoop -> check_goal goal (lr_state r) = true).
Proof.
  induction n as [|n IH]; intros plan cur k; cbn zeta.
  - exists []. cbn. rewrite app_nil_r, Nat.add_0_r.
    repeat split; auto; discriminate.
  - cbn [search_loop].
    destruct (check_goal goal cur) eqn:Hg.
    + exists []. cbn. rewrite app_nil_r, Nat.add_0_r.
      repeat split; auto; lia.
    + destruct (get_applicable_actions self cur) as [|a rest] eqn:Ha.
      * exists []. cbn. rewrite app_nil_r, Nat.add_0_r.
        repeat split; auto; try lia; discriminate.
      * destruct (IH (plan ++ [a]) (apply_action a cur) (S k))
          as (added & Hp & Hs & He & Hl & Hf & Hx).
        exists (a :: added). rewrite Hp, Hs, He.
        split; [by rewrite <- app_assoc|].
        split; [done|].
        split; [cbn; lia|].
        split; [cbn; lia|].
        split.
        -- constructor; [|done].
           assert (Hin : a ∈ get_applicable_actions self cur)
             by (rewrite Ha; left).
           unfold get_applicable_actions in Hin.
           by apply list_elem_of_filter in Hin as [_ ?].
        -- intros Hex. rewrite <- Hs. by apply Hx.
Qed.

(** A plan that [_forward_search] returns leads from the start state to a
    state meeting the goal. *)
Lemma search_result_sound (self : SymbolicPlanner) (goal : Goal)
    (state : State) (n : nat) (acts : list Action) :
  search_result goal (search_from self goal state n) = Some acts ->
  check_goal goal (run_actions acts state) = true.
Proof.
  unfold search_result, search_from.
  destruct (search_loop_inv self goal n [] state 0)
    as (added & Hp & Hs & _ & _ & _ & Hx).
  cbn in Hp. rewrite Hp, Hs in *.
  destruct (lr_exit _) eqn:He.
  - intros [= <-]. by apply Hx.
  - destruct (check_goal goal (run_actions added state)) eqn:Hg; [|done].
    by intros [= <-].
  - destruct (check_goal goal (run_actions added state)) eqn:Hg; [|done].
    by intros [= <-].
Qed.

(** ** What [create_plan] stores *)

Lemma create_plan_success (self : SymbolicPlanner) (goal : Goal)
    (initial_state : State) (constraints : option (gmap string pyval))
    (uuid_hex plan_id : string) (self' : SymbolicPlanner) :
  create_plan self goal initial_state constraints uuid_hex
    = Returned (Some plan_id, self') ->
  exists acts,
    forward_search self goal initial_state (default ∅ constraints)
      = Returned (Some acts)
    /\ plan_id = "plan-" +:+ uuid_hex
    /\ self' = mkPlanner (actions self)
                 (<[plan_id := new_plan plan_id goal initial_state acts]>
                    (plans self)).
Proof.
  unfold create_plan.
  destruct (forward_search _ _ _ _) as [[acts|]|e]; [|done|done].
  intros [= <- <-]. by exists acts.
Qed.

Lemma new_plan_fields (plan_id : string) (goal : Goal) (initial_state : State)
    (acts : list Action) :
  let plan := new_plan plan_id goal initial_state acts in
  plan !! "plan_id" = Some (VStr plan_id)
  /\ plan !! "goal" = Some (VGoal goal)
  /\ plan !! "initial_state" = Some (VState initial_state)
  /\ plan !! "actions" = Some (VActions acts)
  /\ plan !! "status" = Some (VStatus PENDING)
  /\ plan !! "current_step" = Some (VInt 0).
Proof. cbn zeta. unfold new_plan. repeat split; by simplify_map_eq. Qed.

Lemma forward_search_sound (self : SymbolicPlanner) (goal : Goal)
    (state : State) (constraints : gmap string pyval) (acts : list Action) :
  forward_search self goal state constraints = Returned (Some acts) ->
  check_goal goal (run_actions acts state) = true.
Proof.
  unfold forward_search. destruct (py_range _) as [n|e]; [|done].
  intros [= H]. by apply search_result_sound in H.
Qed.

(** C1.  Whenever [create_plan] returns a plan identifier, the record stored
    under it holds the action sequence that the search returned, and applying
    these actions in order to the initial state, each with the removals and
    additions of [_apply_action], gives a state that contains every condition
    of the goal. *)
Theorem create_plan_sound (self : SymbolicPlanner) (goal : Goal)
    (initial_state : State) (constraints : option (gmap string pyval))
    (uuid_hex plan_id : string) (self' : SymbolicPlanner) :
  create_plan self goal initial_state constraints uuid_hex
    = Returned (Some plan_id, self') ->
  exists (plan : Plan) (acts : list Action),
    plans self' !! plan_id = Some plan
    /\ plan !! "actions" = Some (VActions acts)
    /\ plan !! "initial_state" = Some (VState initial_state)
    /\ plan !! "goal" = Some (VGoal goal)
    /\ forall c, c ∈ conditions goal -> c ∈ run_actions acts initial_state.
Proof.
  intros H. apply create_plan_success in H as (acts & Hs & -> & ->).
  exists (new_plan ("plan-" +:+ uuid_hex) goal initial_state acts), acts.
  destruct (new_plan_fields ("plan-" +:+ uuid_hex) goal initial_state acts)
    as (_ & Hg & Hi & Ha & _ & _).
  split; [cbn; apply lookup_insert_eq|].
  repeat (split; [done|]).
  apply check_goal_spec. by apply forward_search_sound in Hs.
Qed.

Lemma create_plan_sound_witness :
  create_plan blocks hold blocks_start None "0123456789ab"
    = Returned (Some "plan-0123456789ab", blocks_planned)
  /\ exists (plan : Plan) (acts : list Action),
       plans blocks_planned !! "plan-0123456789ab" = Some plan
       /\ plan !! "actions" = Some (VActions acts)
       /\ plan !! "initial_state" = Some (VState blocks_start)
       /\ plan !! "goal" = Some (VGoal hold)
       /\ forall c, c ∈ conditions hold -> c ∈ run_actions acts blocks_start.
Proof.
  split; [vm_compute; reflexivity|].
  apply (create_plan_sound blocks hold blocks_start None "0123456789ab").
  vm_compute; reflexivity.
Defined.

(** ** Ordered dictionaries *)

Section dict.
Context {V : Type}.
Implicit Types (d : list (string * V)) (k : string) (v : V).

Lemma dict_get_set_eq d k v : dict_get k (dict_set k v d) = Some v.
Proof.
  induction d as [|[k' v'] d IH]; cbn.
  - by rewrite String.eqb_refl.
  - destruct (String.eqb k k') eqn:E; cbn.
    + by rewrite String.eqb_refl.
    + by rewrite E.
Qed.

Lemma dict_get_set_ne d k k' v :
  k' ≠ k -> dict_get k' (dict_set k v d) = dict_get k' d.
Proof.
  intros Hne. induction d as [|[k0 v0] d IH]; cbn.
  - by apply String.eqb_neq in Hne as ->.
  - destruct (String.eqb k k0) eqn:E; cbn.
    + apply String.eqb_eq in E as <-.
      by apply String.eqb_neq in Hne as ->.
    + by rewrite IH.
Qed.

Lemma dict_keys_set_present d k v :
  k ∈ dict_keys d -> dict_keys (dict_set k v d) = dict_keys d.
Proof.
  induction d as [|[k' v'] d IH]; cbn; intros Hin.
  - by apply elem_of_nil in Hin.
  - destruct (String.eqb k k') eqn:E; cbn.
    + by apply String.eqb_eq in E as ->.
    + f_equal. apply IH. apply elem_of_cons in Hin as [->|Hin]; [|done].
      by rewrite String.eqb_refl in E.
Qed.

Lemma dict_keys_set_absent d k v :
  k ∉ dict_keys d -> dict_keys (dict_set k v d) = dict_keys d ++ [k].
Proof.
  induction d as [|[k' v'] d IH]; cbn; intros Hin; [done|].
  apply not_elem_of_cons in Hin as [Hne Hin].
  apply String.eqb_neq in Hne as ->. cbn. f_equal. by apply IH.
Qed.

Lemma dict_get_app d1 d2 k :
  dict_get k (d1 ++ d2)
  = match dict_get k d1 with Some v => Some v | None => dict_get k d2 end.
Proof.
  induction d1 as [|[k' v'] d1 IH]; cbn; [done|].
  by destruct (String.eqb k k').
Qed.

Lemma omap_dict_get_cons d k v (ks : list string) :
  k ∉ ks ->
  omap (fun k0 => dict_get k0 ((k, v) :: d)) ks
  = omap (fun k0 => dict_get k0 d) ks.
Proof.
  induction ks as [|k0 ks IH]; intros Hk; [done|].
  apply not_elem_of_cons in Hk as [Hne Hk].
  assert (E : String.eqb k0 k = false) by (apply String.eqb_neq; congruence).
  specialize (IH Hk). unfold omap in *. simpl in *. by rewrite E, IH.
Qed.

(** With distinct keys, the values are read off key by key. *)
Lemma dict_values_by_key d :
  NoDup (dict_keys d) ->
  dict_values d = omap (fun k => dict_get k d) (dict_keys d).
Proof.
  unfold dict_values, dict_keys.
  induction d as [|[k v] d IH]; intros Hnd; [done|].
  rewrite !map_cons in *. apply NoDup_cons in Hnd as [Hk Hnd].
  cbn [omap list_omap fst snd]. cbn [dict_get]. rewrite String.eqb_refl.
  f_equal. rewrite (IH Hnd). symmetry. by apply omap_dict_get_cons.
Qed.
End dict.

(** ** Registration *)

Lemma dict_keys_set {V : Type} (d : list (string * V)) (k : string) (v : V) :
  dict_keys (dict_set k v d) = note_key (dict_keys d) k.
Proof.
  unfold note_key. case_bool_decide.
  - by apply dict_keys_set_present.
  - by apply dict_keys_set_absent.
Qed.

Lemma register_all_keys (regs : list (string * Action)) (self : SymbolicPlanner) :
  dict_keys (actions (register_all self regs))
  = fold_left note_key (map fst regs) (dict_keys (actions self)).
Proof.
  revert self. induction regs as [|[k a] regs IH]; intros self; [done|].
  change (register_all self ((k, a) :: regs))
    with (register_all (register_action self k a).2 regs).
  rewrite IH.
  change (actions (register_action self k a).2)
    with (dict_set k a (actions self)).
  by rewrite dict_keys_set.
Qed.

Lemma register_all_get (regs : list (string * Action)) (self : SymbolicPlanner)
    (k : string) :
  dict_get k (actions (register_all self regs))
  = match dict_get k (rev regs) with
    | Some a => Some a
    | None => dict_get k (actions self)
    end.
Proof.
  revert self. induction regs as [|[k' a] regs IH]; intros self; [done|].
  change (register_all self ((k', a) :: regs))
    with (register_all (register_action self k' a).2 regs).
  rewrite IH.
  change (actions (register_action self k' a).2)
    with (dict_set k' a (actions self)).
  cbn [rev]. rewrite dict_get_app. destruct (dict_get k (rev regs)); [done|].
  cbn [dict_get]. destruct (String.eqb k k') eqn:E.
  - apply String.eqb_eq in E as ->. apply dict_get_set_eq.
  - apply dict_get_set_ne. by apply String.eqb_neq.
Qed.

Lemma note_key_NoDup (ks seen : list string) :
  NoDup seen -> NoDup (fold_left note_key ks seen).
Proof.
  revert seen. induction ks as [|k ks IH]; intros seen Hnd; [done|].
  cbn. apply IH. unfold note_key. case_bool_decide; [done|].
  apply NoDup_app. split; [done|]. split.
  - intros x Hx Hx'. apply list_elem_of_singleton in Hx'. by subst.
  - apply NoDup_singleton.
Qed.

Lemma register_all_NoDup (regs : list (string * Action)) :
  NoDup (dict_keys (actions (register_all init regs))).
Proof. rewrite register_all_keys. apply note_key_NoDup, NoDup_nil_2. Qed.

(** ** Registration performs no validation *)

(** C2, as stated, fails: both kinds of definition that should be refused
    are accepted, the call returns [True] and the registry now holds them. *)
Lemma register_action_accepts_invalid :
  spec_conflicting_effects self_defeating = true
  /\ register_action init "bad" self_defeating
     = (true, mkPlanner [("bad", self_defeating)] ∅)
  /\ Qle_bool 0 (cost refund) = false
  /\ spec_invalid_action refund = true
  /\ register_action init "refund" refund
     = (true, mkPlanner [("refund", refund)] ∅)
  /\ actions (register_action init "refund" refund).2 ≠ actions init.
Proof. repeat split; try (vm_compute; reflexivity). discriminate. Qed.

(** C2, amended.  [register_action] validates nothing: for every action,
    valid or not, it returns [True], the registry then maps the identifier
    to that action, every other identifier keeps its definition, and the plan
    store is untouched. *)
Theorem register_action_unconditional (self : SymbolicPlanner)
    (action_id : string) (action : Action) :
  (register_action self action_id action).1 = true
  /\ dict_get action_id (actions (register_action self action_id action).2)
     = Some action
  /\ (forall other, other ≠ action_id ->
        dict_get other (actions (register_action self action_id action).2)
        = dict_get other (actions self))
  /\ plans (register_action self action_id action).2 = plans self.
Proof.
  cbn. split; [done|]. split; [apply dict_get_set_eq|].
  split; [|done]. intros other Hne. by apply dict_get_set_ne.
Qed.

(** ** Applicable actions come in registration order *)

Lemma get_applicable_actions_elem (self : SymbolicPlanner) (state : State)
    (a : Action) :
  a ∈ get_applicable_actions self state
  <-> a ∈ dict_values (actions self)
      /\ forall p, p ∈ preconditions a -> p ∈ state.
Proof.
  unfold get_applicable_actions. rewrite list_elem_of_filter, applicable_spec.
  tauto.
Qed.

(** C8.  Let the registry be built by any sequence of registrations.  The
    applicable-actions query walks the identifiers in the order in which each
    was first registered, takes for each the definition registered last, and
    keeps those whose preconditions all belong to the state; it returns
    exactly the registered actions with that property.  Registering an
    identifier again replaces its definition and leaves the order of the
    identifiers as it was; a new identifier goes to the end. *)
Theorem applicable_in_registration_order (regs : list (string * Action))
    (state : State) :
  let self := register_all init regs in
  dict_keys (actions self) = first_seen (map fst regs)
  /\ get_applicable_actions self state
     = filter (fun a => applicable state a = true)
         (omap (fun k => dict_get k (rev regs)) (first_seen (map fst regs)))
  /\ (forall a, a ∈ get_applicable_actions self state
        <-> a ∈ dict_values (actions self)
            /\ forall p, p ∈ preconditions a -> p ∈ state)
  /\ (forall k a, k ∈ dict_keys (actions self) ->
        dict_keys (actions (register_action self k a).2) = dict_keys (actions self)
        /\ dict_get k (actions (register_action self k a).2) = Some a)
  /\ (forall k a, k ∉ dict_keys (actions self) ->
        dict_keys (actions (register_action self k a).2)
        = dict_keys (actions self) ++ [k]).
Proof.
  cbn zeta.
  assert (Hk : dict_keys (actions (register_all init regs))
               = first_seen (map fst regs))
    by apply register_all_keys.
  split; [done|]. split.
  - unfold get_applicable_actions.
    rewrite (dict_values_by_key _ (register_all_NoDup regs)), Hk.
    f_equal. apply list_omap_ext, Forall_Forall2_diag, Forall_forall.
    intros k _. rewrite register_all_get. by destruct (dict_get k (rev regs)).
  - split; [intros a; apply get_applicable_actions_elem|].
    split; intros k a Hin; cbn.
    + split; [by apply dict_keys_set_present|apply dict_get_set_eq].
    + by apply dict_keys_set_absent.
Qed.

Example overwrite_keeps_position :
  let a := mkAction "a" [] [] ["p"] 1 in
  let b := mkAction "b" [] [] ["q"] 1 in
  let a' := mkAction "a2" [] [] ["r"] 2 in
  get_applicable_actions (register_all init [("a", a); ("b", b); ("a", a')]) ∅
  = [a'; b].
Proof. vm_compute. reflexivity. Qed.

(** ** [execute_plan] *)

(** The store is a map from identifiers to records: [create_plan] builds a
    new dictionary for each plan it stores, so no two identifiers share a
    record and an update under one identifier is an [insert] at that key. *)

Lemma execute_plan_known (self : SymbolicPlanner) (plan_id : string) (plan : Plan) :
  plans self !! plan_id = Some plan ->
  execute_plan self plan_id
  = (true, mkPlanner (actions self)
             (<[plan_id := <["status" := VStatus IN_PROGRESS]> plan]> (plans self))).
Proof. unfold execute_plan. by intros ->. Qed.

Lemma execute_plan_unknown (self : SymbolicPlanner) (plan_id : string) :
  plans self !! plan_id = None -> execute_plan self plan_id = (false, self).
Proof. unfold execute_plan. by intros ->. Qed.

(** C3, as stated, fails: a plan that is already [IN_PROGRESS] is executed
    again with success, and a [COMPLETED] plan is taken out of its terminal
    status. *)
Lemma execute_plan_ignores_status :
  stored_status blocks_running "plan-0123456789ab" = Some (VStatus IN_PROGRESS)
  /\ (execute_plan blocks_running "plan-0123456789ab").1 = true
  /\ stored_status blocks_completed "plan-0123456789ab" = Some (VStatus COMPLETED)
  /\ (execute_plan blocks_completed "plan-0123456789ab").1 = true
  /\ stored_status (execute_plan blocks_completed "plan-0123456789ab").2
       "plan-0123456789ab" = Some (VStatus IN_PROGRESS).
Proof. repeat split; vm_compute; reflexivity. Qed.

(** C3, amended.  [execute_plan] succeeds exactly when the plan identifier is
    known, whatever the stored status is; the status then becomes
    [IN_PROGRESS] and [current_step] keeps its value.  For an unknown
    identifier it returns [False] and the planner is unchanged. *)
Theorem execute_plan_transition (self : SymbolicPlanner) (plan_id : string) :
  ((execute_plan self plan_id).1 = true <-> is_Some (plans self !! plan_id))
  /\ (forall plan, plans self !! plan_id = Some plan ->
        (execute_plan self plan_id).1 = true
        /\ exists plan',
             plans (execute_plan self plan_id).2 !! plan_id = Some plan'
             /\ plan' !! "status" = Some (VStatus IN_PROGRESS)
             /\ plan' !! "current_step" = plan !! "current_step")
  /\ (plans self !! plan_id = None ->
        execute_plan self plan_id = (false, self)).
Proof.
  split; [|split].
  - destruct (plans self !! plan_id) as [plan|] eqn:E.
    + rewrite (execute_plan_known _ _ _ E). split; [by eexists|done].
    + rewrite (execute_plan_unknown _ _ E). split; [done|].
      by intros [? ?].
  - intros plan E. rewrite (execute_plan_known _ _ _ E). split; [done|].
    eexists. cbn. split; [apply lookup_insert_eq|].
    split; [apply lookup_insert_eq|]. by apply lookup_insert_ne.
  - apply execute_plan_unknown.
Qed.

(** C10.  [execute_plan] touches nothing but the ["status"] entry of the
    record stored under the given identifier: every other entry of that
    record (["goal"], ["initial_state"], ["actions"], ["current_step"],
    ["plan_id"]), every record stored under another identifier and the action
    registry are as before; for an unknown identifier the planner as a whole
    is as before. *)
Theorem execute_plan_frame (self : SymbolicPlanner) (plan_id : string) :
  actions (execute_plan self plan_id).2 = actions self
  /\ (forall other, other ≠ plan_id ->
        plans (execute_plan self plan_id).2 !! other = plans self !! other)
  /\ (forall plan, plans self !! plan_id = Some plan ->
        exists plan',
          plans (execute_plan self plan_id).2 !! plan_id = Some plan'
          /\ (forall key, key ≠ "status" -> plan' !! key = plan !! key)
          /\ plan' !! "goal" = plan !! "goal"
          /\ plan' !! "initial_state" = plan !! "initial_state"
          /\ plan' !! "actions" = plan !! "actions"
          /\ plan' !! "current_step" = plan !! "current_step")
  /\ (plans self !! plan_id = None -> (execute_plan self plan_id).2 = self).
Proof.
  destruct (plans self !! plan_id) as [plan|] eqn:E.
  - rewrite (execute_plan_known _ _ _ E). cbn.
    split; [done|]. split; [|split; [|done]].
    + intros other Hne. by apply lookup_insert_ne.
    + intros ? [= <-]. eexists. split; [apply lookup_insert_eq|].
      split; [intros key Hne; by apply lookup_insert_ne|].
      repeat split; by apply lookup_insert_ne.
  - rewrite (execute_plan_unknown _ _ E). cbn. by repeat split.
Qed.

(** ** The search reads nothing but [max_depth] *)

Lemma forward_search_depth_only (self : SymbolicPlanner) (goal : Goal)
    (state : State) (c1 c2 : gmap string pyval) :
  c1 !! "max_depth" = c2 !! "max_depth" ->
  forward_search self goal state c1 = forward_search self goal state c2.
Proof. unfold forward_search, max_depth_of. by intros ->. Qed.

(** When the first applicable action reaches the goal, the plan is that
    action alone. *)
Lemma search_one_step (self : SymbolicPlanner) (goal : Goal) (state : State)
    (n : nat) (a : Action) (rest : list Action) :
  check_goal goal state = false ->
  get_applicable_actions self state = a :: rest ->
  check_goal goal (apply_action a state) = true ->
  search_result goal (search_from self goal state (S n)) = Some [a].
Proof.
  intros Hs Ha Hg. unfold search_from, search_result. cbn [search_loop].
  rewrite Hs, Ha. destruct n as [|n]; cbn [search_loop].
  - cbn. by rewrite Hg.
  - by rewrite Hg.
Qed.

(** C4, as stated, fails: with the two actions of scenario C registered, the
    dearer one first, and a constraint asking for the lowest cost, the plan
    is the action of cost 5 although the action of cost 1 reaches the goal
    as well. *)
Lemma lowest_cost_not_honoured :
  forward_search two_prices finish ∅ lowest_cost = Returned (Some [expensive])
  /\ cost expensive = 5%Q
  /\ cost cheap = 1%Q
  /\ check_goal finish (run_actions [cheap] ∅) = true
  /\ check_goal finish (run_actions [expensive] ∅) = true
  /\ check_goal finish ∅ = false.
Proof. repeat split; vm_compute; reflexivity. Qed.

(** ** Failure of the search *)

(** What is left of the loop result when the final state misses the goal. *)
Lemma search_result_None (self : SymbolicPlanner) (goal : Goal) (state : State)
    (n : nat) :
  search_result goal (search_from self goal state n) = None
  <-> check_goal goal (lr_state (search_from self goal state n)) = false.
Proof.
  unfold search_result, search_from.
  destruct (search_loop_inv self goal n [] state 0) as (_ & _ & _ & _ & _ & _ & Hx).
  destruct (lr_exit _) eqn:He.
  - rewrite Hx by done. split; discriminate.
  - by destruct (check_goal goal (lr_state _)).
  - by destruct (check_goal goal (lr_state _)).
Qed.

Lemma missed_goal_exit (self : SymbolicPlanner) (goal : Goal) (state : State)
    (n : nat) :
  check_goal goal (lr_state (search_from self goal state n)) = false ->
  lr_exit (search_from self goal state n) = NoApplicable
  \/ lr_exit (search_from self goal state n) = RangeDone.
Proof.
  unfold search_from.
  destruct (search_loop_inv self goal n [] state 0) as (_ & _ & _ & _ & _ & _ & Hx).
  destruct (lr_exit _); [|by left|by right].
  intros Hg. rewrite Hx in Hg; done.
Qed.

(** C5, as stated, fails.  In the empty domain the search stops because no
    action is applicable; in the domain with a cycle it stops because the
    ten iterations are used up.  The caller receives [None] in both cases,
    so nothing computed from the result tells the two causes apart; and a
    [max_depth] that is not an integer makes the call raise. *)
Lemma failure_causes_indistinguishable :
  lr_exit (search_from init want_x ∅ 10) = NoApplicable
  /\ lr_exit (search_from switch want_x {[ "off" ]} 10) = RangeDone
  /\ create_plan init want_x ∅ None "a" = Returned (None, init)
  /\ create_plan switch want_x {[ "off" ]} None "a" = Returned (None, switch)
  /\ ~ (exists kind_of : outcome (option string) -> spec_failure,
          kind_of (returned_value (create_plan init want_x ∅ None "a"))
            = NoPlanFound
          /\ kind_of (returned_value (create_plan switch want_x {[ "off" ]} None "a"))
            = Exhausted)
  /\ create_plan init want_x ∅ (Some {[ "max_depth" := PyStr "deep" ]}) "a"
     = Raised TypeError.
Proof.
  assert (H1 : create_plan init want_x ∅ None "a" = Returned (None, init))
    by (vm_compute; reflexivity).
  assert (H2 : create_plan switch want_x {[ "off" ]} None "a"
               = Returned (None, switch))
    by (vm_compute; reflexivity).
  repeat split; try done; try (vm_compute; reflexivity).
  intros (kind_of & Ha & Hb). rewrite H1 in Ha. rewrite H2 in Hb.
  cbn in Ha, Hb. congruence.
Qed.

(** C5, amended.  Every unsuccessful search returns the same value: when
    [range(max_depth)] is defined and the state in which the loop is left
    misses the goal, the loop was left either for want of an applicable
    action or because the range ran out, and in both cases [_forward_search]
    returns [None], upon which [create_plan] returns [None] and stores
    nothing.  No deadline is consulted. *)
Theorem search_failure_is_none (self : SymbolicPlanner) (goal : Goal)
    (state : State) (constraints : option (gmap string pyval))
    (uuid_hex : string) (n : nat) :
  py_range (max_depth_of (default ∅ constraints)) = Returned n ->
  check_goal goal (lr_state (search_from self goal state n)) = false ->
  (lr_exit (search_from self goal state n) = NoApplicable
   \/ lr_exit (search_from self goal state n) = RangeDone)
  /\ forward_search self goal state (default ∅ constraints) = Returned None
  /\ create_plan self goal state constraints uuid_hex = Returned (None, self).
Proof.
  intros Hr Hg.
  assert (Hfs : forward_search self goal state (default ∅ constraints)
                = Returned None).
  { unfold forward_search. rewrite Hr. f_equal. by apply search_result_None. }
  split; [by apply missed_goal_exit|]. split; [done|].
  unfold create_plan. by rewrite Hfs.
Qed.

Lemma search_failure_is_none_witness :
  (lr_exit (search_from switch want_x {[ "off" ]} 10) = NoApplicable
   \/ lr_exit (search_from switch want_x {[ "off" ]} 10) = RangeDone)
  /\ forward_search switch want_x {[ "off" ]} ∅ = Returned None
  /\ create_plan switch want_x {[ "off" ]} None "a" = Returned (None, switch).
Proof.
  apply (search_failure_is_none switch want_x {[ "off" ]} None "a" 10);
    vm_compute; reflexivity.
Defined.

(** ** A goal that already holds *)

Lemma search_from_satisfied (self : SymbolicPlanner) (goal : Goal)
    (state : State) (n : nat) :
  check_goal goal state = true ->
  search_result goal (search_from self goal state n) = Some []
  /\ lr_expansions (search_from self goal state n) = 0%nat.
Proof.
  intros Hg. unfold search_result, search_from.
  destruct n as [|n]; cbn; by rewrite Hg.
Qed.

(** C6, as stated, fails in one respect: the record that [create_plan]
    stores has the six entries below and no ["total_cost"] among them. *)
Lemma stored_plan_has_no_total_cost :
  create_plan blocks hand_free blocks_start (Some no_depth) "0123456789ab"
    = Returned (Some "plan-0123456789ab", idle_planned)
  /\ plans idle_planned !! "plan-0123456789ab" = Some idle_plan
  /\ idle_plan !! "actions" = Some (VActions [])
  /\ idle_plan !! "total_cost" = None
  /\ dom idle_plan = {[ "plan_id"; "goal"; "initial_state"; "actions"; "status";
                        "current_step" ]}.
Proof.
  split; [vm_compute; reflexivity|].
  split; [vm_compute; reflexivity|].
  split; [vm_compute; reflexivity|].
  split; [vm_compute; reflexivity|].
  unfold idle_plan, new_plan. rewrite !dom_insert_L, dom_empty_L. set_solver.
Qed.

(** C6, amended.  When every condition of the goal belongs to the initial
    state, then for every [max_depth] that [range] accepts, zero included,
    [create_plan] succeeds without applying any action, and the record it
    stores has an empty action sequence (whose costs add up to 0), status
    [PENDING] and step 0.  The record has no ["total_cost"] entry. *)
Theorem satisfied_goal_fast_path (self : SymbolicPlanner) (goal : Goal)
    (initial_state : State) (constraints : option (gmap string pyval))
    (uuid_hex : string) (n : nat) :
  (forall c, c ∈ conditions goal -> c ∈ initial_state) ->
  py_range (max_depth_of (default ∅ constraints)) = Returned n ->
  lr_expansions (search_from self goal initial_state n) = 0%nat
  /\ forward_search self goal initial_state (default ∅ constraints)
     = Returned (Some [])
  /\ exists (self' : SymbolicPlanner) (plan : Plan) (acts : list Action),
       create_plan self goal initial_state constraints uuid_hex
         = Returned (Some ("plan-" +:+ uuid_hex), self')
       /\ plans self' !! ("plan-" +:+ uuid_hex) = Some plan
       /\ plan !! "actions" = Some (VActions acts)
       /\ acts = []
       /\ fold_right Qplus 0%Q (map cost acts) = 0%Q
       /\ plan !! "status" = Some (VStatus PENDING)
       /\ plan !! "current_step" = Some (VInt 0)
       /\ plan !! "total_cost" = None.
Proof.
  intros Hsub Hr. apply check_goal_spec in Hsub.
  destruct (search_from_satisfied self goal initial_state n Hsub) as [Hres Hexp].
  assert (Hfs : forward_search self goal initial_state (default ∅ constraints)
                = Returned (Some [])).
  { unfold forward_search. by rewrite Hr, Hres. }
  split; [done|]. split; [done|].
  unfold create_plan. rewrite Hfs.
  destruct (new_plan_fields ("plan-" +:+ uuid_hex) goal initial_state [])
    as (_ & _ & _ & Ha & Hst & Hc).
  eexists _, _, []. split; [reflexivity|].
  split; [apply lookup_insert_eq|].
  repeat (split; [done|]).
  unfold new_plan. by simplify_map_eq.
Qed.

Lemma satisfied_goal_fast_path_witness :
  lr_expansions (search_from blocks hand_free blocks_start 0) = 0%nat
  /\ forward_search blocks hand_free blocks_start no_depth = Returned (Some [])
  /\ exists (self' : SymbolicPlanner) (plan : Plan) (acts : list Action),
       create_plan blocks hand_free blocks_start (Some no_depth) "0123456789ab"
         = Returned (Some "plan-0123456789ab", self')
       /\ plans self' !! "plan-0123456789ab" = Some plan
       /\ plan !! "actions" = Some (VActions acts)
       /\ acts = []
       /\ fold_right Qplus 0%Q (map cost acts) = 0%Q
       /\ plan !! "status" = Some (VStatus PENDING)
       /\ plan !! "current_step" = Some (VInt 0)
       /\ plan !! "total_cost" = None.
Proof.
  apply (satisfied_goal_fast_path blocks hand_free blocks_start (Some no_depth)
           "0123456789ab" 0).
  - intros c Hc. apply list_elem_of_singleton in Hc as ->.
    apply (bool_decide_unpack _). vm_compute. reflexivity.
  - vm_compute. reflexivity.
Defined.

(** ** Termination within [max_depth] *)

(** C7.  For every domain, cyclic or not, every initial state and goal, and
    every [max_depth] that is a non-negative integer (10 when the constraint
    is absent), [_forward_search] returns, with a plan or with [None], after
    applying at most [max_depth] actions; a plan that it returns has at most
    [max_depth] actions, and so has the plan that [create_plan] stores. *)
Theorem search_terminates_within_depth (self : SymbolicPlanner) (goal : Goal)
    (state : State) (constraints : gmap string pyval) (max_depth : Z) :
  max_depth_of constraints = PyInt max_depth ->
  (0 <= max_depth)%Z ->
  exists res : option (list Action),
    forward_search self goal state constraints = Returned res
    /\ (Z.of_nat (lr_expansions (search_from self goal state (Z.to_nat max_depth)))
        <= max_depth)%Z
    /\ (forall acts, res = Some acts -> (Z.of_nat (length acts) <= max_depth)%Z)
    /\ (forall uuid_hex plan_id self',
          create_plan self goal state (Some constraints) uuid_hex
            = Returned (Some plan_id, self') ->
          exists (plan : Plan) (acts : list Action),
            plans self' !! plan_id = Some plan
            /\ plan !! "actions" = Some (VActions acts)
            /\ (Z.of_nat (length acts) <= max_depth)%Z).
Proof.
  intros Hm Hpos.
  assert (Hfs : forward_search self goal state constraints
                = Returned (search_result goal
                    (search_from self goal state (Z.to_nat max_depth))))
    by (unfold forward_search; by rewrite Hm).
  assert (Hlen : forall acts,
            search_result goal (search_from self goal state (Z.to_nat max_depth))
            = Some acts -> (Z.of_nat (length acts) <= max_depth)%Z).
  { unfold search_result, search_from.
    destruct (search_loop_inv self goal (Z.to_nat max_depth) [] state 0)
      as (added & Hp & _ & _ & Hl & _ & _).
    cbn in Hp. rewrite Hp. intros acts Hres.
    assert (acts = added) as ->; [|lia].
    destruct (lr_exit _); [congruence| |];
      destruct (check_goal goal (lr_state _)); congruence. }
  eexists. split; [exact Hfs|]. split; [|split; [done|]].
  - unfold search_from.
    destruct (search_loop_inv self goal (Z.to_nat max_depth) [] state 0)
      as (added & _ & _ & He & Hl & _ & _).
    rewrite He. lia.
  - intros uuid_hex plan_id self' Hc.
    apply create_plan_success in Hc as (acts & Hs & -> & ->).
    change (default ∅ (Some constraints)) with constraints in Hs.
    rewrite Hfs in Hs. injection Hs as Hs.
    destruct (new_plan_fields ("plan-" +:+ uuid_hex) goal state acts)
      as (_ & _ & _ & Ha & _ & _).
    eexists _, acts. split; [cbn; apply lookup_insert_eq|].
    split; [done|by apply Hlen].
Qed.

Lemma search_terminates_within_depth_witness :
  exists res : option (list Action),
    forward_search switch want_x {[ "off" ]} ∅ = Returned res
    /\ (Z.of_nat (lr_expansions (search_from switch want_x {[ "off" ]} (Z.to_nat 10)))
        <= 10)%Z
    /\ (forall acts, res = Some acts -> (Z.of_nat (length acts) <= 10)%Z)
    /\ (forall uuid_hex plan_id self',
          create_plan switch want_x {[ "off" ]} (Some ∅) uuid_hex
            = Returned (Some plan_id, self') ->
          exists (plan : Plan) (acts : list Action),
            plans self' !! plan_id = Some plan
            /\ plan !! "actions" = Some (VActions acts)
            /\ (Z.of_nat (length acts) <= 10)%Z).
Proof.
  apply (search_terminates_within_depth switch want_x {[ "off" ]} ∅ 10).
  - vm_compute. reflexivity.
  - lia.
Defined.

(** The cycle is really run through: all ten iterations apply an action. *)
Example cycle_uses_every_iteration :
  lr_expansions (search_from switch want_x {[ "off" ]} 10) = 10%nat
  /\ map name (lr_plan (search_from switch want_x {[ "off" ]} 4))
     = ["flip_on"; "flip_off"; "flip_on"; "flip_off"].
Proof. split; vm_compute; reflexivity. Qed.

(** ** The [NOT_] encoding of removals *)

Lemma is_negative_negated (fact : string) : is_negative (negated fact) = true.
Proof.
  unfold is_negative, negated. apply String.prefix_correct.
  cbn. by destruct fact.
Qed.

Lemma str_from_negated (fact : string) : str_from 4 (negated fact) = fact.
Proof. reflexivity. Qed.

Lemma is_negative_inv (effect : string) :
  is_negative effect = true -> effect = negated (str_from 4 effect).
Proof.
  unfold is_negative, negated. intros H. apply String.prefix_correct in H.
  destruct effect as [|c1 [|c2 [|c3 [|c4 rest]]]]; cbn in H; try discriminate.
  by injection H as -> -> -> -> _.
Qed.

(** Unfolding one turn of the loop of [_apply_action]. *)
Lemma elem_of_apply_effect (state : State) (effect f : string) :
  f ∈ apply_effect state effect
  <-> (is_negative effect = true /\ f ∈ state /\ effect ≠ negated f)
      \/ (is_negative effect = false /\ (f ∈ state \/ f = effect)).
Proof.
  unfold apply_effect. destruct (is_negative effect) eqn:E.
  - rewrite elem_of_difference, not_elem_of_singleton.
    apply is_negative_inv in E. split.
    + intros [Hs Hne]. left. repeat split; [done|].
      intros Heq. apply Hne. rewrite Heq. by rewrite str_from_negated.
    + intros [(_ & Hs & Hne)|[? _]]; [|done]. split; [done|].
      intros ->. by apply Hne.
  - rewrite elem_of_union, elem_of_singleton. split.
    + intros H. by right.
    + by intros [[? _]|[_ H]].
Qed.

(** Effects only add what they name and only remove what they negate. *)
Lemma apply_effects_adds_only (es : list string) (state : State) (f : string) :
  f ∈ fold_left apply_effect es state ->
  f ∈ state \/ (f ∈ es /\ is_negative f = false).
Proof.
  revert state. induction es as [|e es IH]; intros state; cbn; [by left|].
  intros H. apply IH in H as [H|[H ?]].
  - apply elem_of_apply_effect in H as [(_ & ? & _)|[E [?| ->]]].
    + by left.
    + by left.
    + right. split; [left|done].
  - right. split; [by right|done].
Qed.

Lemma apply_effects_removes_only (es : list string) (state : State) (f : string) :
  f ∈ state ->
  f ∉ fold_left apply_effect es state ->
  negated f ∈ es.
Proof.
  revert state. induction es as [|e es IH]; intros state; cbn; [done|].
  intros Hs Hn.
  destruct (decide (e = negated f)) as [ -> |Hne]; [left|].
  right. apply (IH (apply_effect state e)); [|done].
  apply elem_of_apply_effect. destruct (is_negative e) eqn:E.
  - left. by repeat split.
  - right. split; [done|by left].
Qed.

(** When no fact is both added and removed, the outcome does not depend on
    the order of the effects. *)
Lemma apply_effects_exact (es : list string) :
  (forall f, f ∈ es -> is_negative f = false -> negated f ∉ es) ->
  forall (state : State) (f : string),
    f ∈ fold_left apply_effect es state
    <-> (f ∈ es /\ is_negative f = false)
        \/ (f ∈ state /\ negated f ∉ es).
Proof.
  induction es as [|e es IH]; intros Hnc state f; cbn.
  - rewrite elem_of_nil. split; [intros H; right; split; [done|]|].
    + apply not_elem_of_nil.
    + by intros [[[] _]|[? _]].
  - rewrite IH, elem_of_apply_effect.
    2:{ intros g Hg Hneg Hin. apply (Hnc g); [by right|done|by right]. }
    rewrite !elem_of_cons.
    assert (Hf : is_negative (negated f) = true) by apply is_negative_negated.
    destruct (is_negative e) eqn:E.
    + assert (He : f = e -> is_negative f = true) by (by intros ->).
      split.
      * intros [[Hin Hneg]|[[(_ & Hs & Hne)|[? _]] Hout]]; [| |done].
        -- left. split; [by right|done].
        -- right. split; [done|]. intros [Heq|Hin]; [by apply Hne|done].
      * intros [[[Heq|Hin] Hneg]|[Hs Hout]].
        -- rewrite (He Heq) in Hneg. done.
        -- left. by split.
        -- right. split; [|intros Hin; apply Hout; by right].
           left. repeat split; [done|]. intros Heq. apply Hout. by left.
    + assert (He : negated f ≠ e) by (intros <-; congruence).
      assert (Hnot : negated e ∉ es).
      { intros Hin. apply (Hnc e); [by left|done|by right]. }
      split.
      * intros [[Hin Hneg]|[[[? _]|(_ & [Hs|Heq])] Hout]]; [|done| |].
        -- left. split; [by right|done].
        -- right. split; [done|]. by intros [?|?].
        -- left. subst f. split; [by left|done].
      * intros [[[Heq|Hin] Hneg]|[Hs Hout]].
        -- subst f. right. split; [|done]. right. split; [done|by right].
        -- left. by split.
        -- right. split; [|intros Hin; apply Hout; by right].
           right. split; [done|by left].
Qed.

(** No sequence of actions brings in a fact whose name starts with [NOT_]. *)
Lemma run_actions_keeps_negative_out (acts : list Action) (state : State)
    (g : string) :
  is_negative g = true -> g ∉ state -> g ∉ run_actions acts state.
Proof.
  intros Hneg. revert state.
  induction acts as [|a acts IH]; intros state Hout; cbn; [done|].
  apply IH. intros Hin. unfold apply_action in Hin.
  apply apply_effects_adds_only in Hin as [?|[_ E]]; [done|congruence].
Qed.

(** C9, as stated, fails: the effects are applied one after the other, so an
    effect string without the prefix is not always added, and a fact whose
    negation is listed is not always removed. *)
Lemma effect_order_decides :
  ("x" ∈ effects add_then_remove
   /\ is_negative "x" = false
   /\ "x" ∉ apply_action add_then_remove ∅)
  /\ (negated "x" ∈ effects remove_then_add
      /\ "x" ∈ ({[ "x" ]} : State)
      /\ "x" ∈ apply_action remove_then_add {[ "x" ]}).
Proof.
  repeat split; try (vm_compute; reflexivity);
    apply (bool_decide_unpack _); vm_compute; reflexivity.
Qed.

(** C9, amended.  For an action whose effect list does not hold both a fact
    and its [NOT_] form, applying it yields exactly the effect strings that do
    not start with [NOT_] together with the facts of the state whose [NOT_]
    form is not an effect.  For every action, a fact that appears was named
    by an effect without the prefix and a fact that disappears was named by
    a [NOT_] effect; so no action ever adds a fact that starts with [NOT_],
    and a goal condition that starts with [NOT_] and is absent from the
    initial state holds after no sequence of actions: the search finds no
    plan for such a goal. *)
Theorem not_prefix_encoding (self : SymbolicPlanner) (action : Action)
    (state : State) (goal : Goal) (initial_state : State)
    (constraints : gmap string pyval) (g : string) :
  (forall f, f ∈ effects action -> is_negative f = false ->
             negated f ∉ effects action) ->
  g ∈ conditions goal ->
  is_negative g = true ->
  g ∉ initial_state ->
  (forall f, f ∈ apply_action action state
             <-> (f ∈ effects action /\ is_negative f = false)
                 \/ (f ∈ state /\ negated f ∉ effects action))
  /\ (forall (a : Action) (s : State) (f : string),
        (f ∈ apply_action a s -> f ∈ s \/ (f ∈ effects a /\ is_negative f = false))
        /\ (f ∈ s -> f ∉ apply_action a s -> negated f ∈ effects a)
        /\ (is_negative f = true -> f ∈ apply_action a s -> f ∈ s))
  /\ (forall acts : list Action, g ∉ run_actions acts initial_state)
  /\ (forall acts : list Action,
        forward_search self goal initial_state constraints
        ≠ Returned (Some acts)).
Proof.
  intros Hnc Hg Hneg Hout. split; [|split; [|split]].
  - intros f. by apply apply_effects_exact.
  - intros a s f. split; [apply apply_effects_adds_only|].
    split; [apply apply_effects_removes_only|].
    intros Hf Hin. apply apply_effects_adds_only in Hin as [?|[_ E]];
      [done|congruence].
  - intros acts. by apply run_actions_keeps_negative_out.
  - intros acts Hfs. apply forward_search_sound in Hfs.
    apply (run_actions_keeps_negative_out acts initial_state g Hneg Hout).
    by apply (proj1 (check_goal_spec _ _) Hfs).
Qed.

Lemma not_prefix_encoding_witness :
  (forall f, f ∈ apply_action pickup blocks_start
             <-> (f ∈ effects pickup /\ is_negative f = false)
                 \/ (f ∈ blocks_start /\ negated f ∉ effects pickup))
  /\ (forall (a : Action) (s : State) (f : string),
        (f ∈ apply_action a s -> f ∈ s \/ (f ∈ effects a /\ is_negative f = false))
        /\ (f ∈ s -> f ∉ apply_action a s -> negated f ∈ effects a)
        /\ (is_negative f = true -> f ∈ apply_action a s -> f ∈ s))
  /\ (forall acts : list Action, "NOT_hand_empty" ∉ run_actions acts blocks_start)
  /\ (forall acts : list Action,
        forward_search blocks hand_full blocks_start ∅ ≠ Returned (Some acts)).
Proof.
  apply (not_prefix_encoding blocks pickup blocks_start hand_full blocks_start ∅
           "NOT_hand_empty").
  - intros f Hin Hneg. cbn in Hin.
    apply elem_of_cons in Hin as [ -> |Hin].
    + apply (bool_decide_unpack _). vm_compute. reflexivity.
    + apply list_elem_of_singleton in Hin as ->. vm_compute in Hneg. discriminate.
  - apply (bool_decide_unpack _). vm_compute. reflexivity.
  - vm_compute. reflexivity.
  - apply (bool_decide_unpack _). vm_compute. reflexivity.
Defined.

(** * Further properties of the planner *)

(** ** The search follows the first applicable action *)

(** What the loop has done when it is left. *)
Lemma search_loop_path (self : SymbolicPlanner) (goal : Goal) (n : nat) :
  forall (plan : list Action) (cur : State) (k : nat),
    let r := search_loop self goal n plan cur k in
    exists added,
      lr_plan r = plan ++ added
      /\ lr_state r = run_actions added cur
      /\ greedy_path self goal cur added
      /\ (length added <= n)%nat.
Proof.
  induction n as [|n IH]; intros plan cur k; cbn zeta.
  - exists []. cbn. by rewrite app_nil_r.
  - cbn [search_loop]. destruct (check_goal goal cur) eqn:Hg.
    + exists []. cbn. rewrite app_nil_r. repeat split; lia.
    + destruct (get_applicable_actions self cur) as [|a rest] eqn:Ha.
      * exists []. cbn. rewrite app_nil_r. repeat split; lia.
      * destruct (IH (plan ++ [a]) (apply_action a cur) (S k))
          as (added & Hp & Hs & Hpath & Hl).
        exists (a :: added). rewrite Hp, Hs.
        split; [by rewrite <- app_assoc|]. split; [done|].
        split; [|cbn; lia]. cbn. by rewrite Hg, Ha.
Qed.

(** A path that ends on the goal within the range is what is returned. *)
Lemma greedy_path_found (self : SymbolicPlanner) (goal : Goal)
    (acts : list Action) :
  forall (n : nat) (plan : list Action) (cur : State) (k : nat),
    greedy_path self goal cur acts ->
    check_goal goal (run_actions acts cur) = true ->
    (length acts <= n)%nat ->
    search_result goal (search_loop self goal n plan cur k) = Some (plan ++ acts).
Proof.
  induction acts as [|a rest IH]; intros n plan cur k Hpath Hg Hl.
  - cbn in Hg. rewrite app_nil_r. unfold search_result.
    destruct n as [|n]; cbn; by rewrite Hg.
  - destruct Hpath as (Hs & Ha & Hpath).
    destruct n as [|n]; [cbn in Hl; lia|].
    cbn [search_loop]. rewrite Hs.
    destruct (get_applicable_actions self cur) as [|a' rest'] eqn:E; [done|].
    injection Ha as ->.
    rewrite (IH n (plan ++ [a]) (apply_action a cur) (S k)); [|done|done|cbn in Hl; lia].
    by rewrite <- app_assoc.
Qed.

(** A path that is longer than the range is cut before it has met the goal. *)
Lemma greedy_path_cut (self : SymbolicPlanner) (goal : Goal) (n : nat) :
  forall (acts plan : list Action) (cur : State) (k : nat),
    greedy_path self goal cur acts ->
    (n < length acts)%nat ->
    search_result goal (search_loop self goal n plan cur k) = None.
Proof.
  induction n as [|n IH]; intros acts plan cur k Hpath Hl;
    (destruct acts as [|a rest]; [cbn in Hl; lia|]);
    destruct Hpath as (Hs & Ha & Hpath).
  - unfold search_result. cbn. by rewrite Hs.
  - cbn [search_loop]. rewrite Hs.
    destruct (get_applicable_actions self cur) as [|a' rest'] eqn:E; [done|].
    injection Ha as ->. apply (IH rest); [done|cbn in Hl; lia].
Qed.

Lemma search_result_path (self : SymbolicPlanner) (goal : Goal) (state : State)
    (n : nat) (acts : list Action) :
  search_result goal (search_from self goal state n) = Some acts
  <-> greedy_path self goal state acts
      /\ check_goal goal (run_actions acts state) = true
      /\ (length acts <= n)%nat.
Proof.
  split.
  - intros Hres. pose proof (search_result_sound _ _ _ _ _ Hres) as Hg.
    unfold search_result, search_from in Hres.
    destruct (search_loop_path self goal n [] state 0)
      as (added & Hp & _ & Hpath & Hl).
    cbn in Hp. rewrite Hp in Hres.
    assert (acts = added) as ->; [|done].
    destruct (lr_exit _); [congruence| |];
      destruct (check_goal goal (lr_state _)); congruence.
  - intros (Hpath & Hg & Hl). unfold search_from.
    by rewrite (greedy_path_found self goal acts n [] state 0).
Qed.

Lemma forward_search_returned (self : SymbolicPlanner) (goal : Goal)
    (state : State) (constraints : gmap string pyval)
    (res : option (list Action)) :
  forward_search self goal state constraints = Returned res ->
  exists n, py_range (max_depth_of constraints) = Returned n
            /\ search_result goal (search_from self goal state n) = res.
Proof.
  unfold forward_search. destruct (py_range _) as [n|e]; [|done].
  intros [= <-]. by exists n.
Qed.

Lemma greedy_path_split (self : SymbolicPlanner) (goal : Goal)
    (pre : list Action) :
  forall (cur : State) (a : Action) (post : list Action),
    greedy_path self goal cur (pre ++ a :: post) ->
    check_goal goal (run_actions pre cur) = false
    /\ head (get_applicable_actions self (run_actions pre cur)) = Some a.
Proof.
  induction pre as [|b pre IH]; intros cur a post Hpath.
  - by destruct Hpath as (? & ? & _).
  - destruct Hpath as (_ & _ & Hpath). by apply IH in Hpath.
Qed.

(** C4, amended.  The search has no selection policy and never reads a
    cost.  For every planner, goal, state and constraints, its result depends
    on the constraints through [max_depth] only, and every action of a
    returned plan is the first applicable action, in registration order, of
    the state it is applied to.  In particular, when the goal does not hold
    in the initial state, [max_depth] is at least 1 and the first applicable
    action reaches the goal in one step, the plan is that action alone,
    whatever the costs are and whatever other registered actions would reach
    the goal as well. *)
Theorem first_applicable_wins (self : SymbolicPlanner) (goal : Goal)
    (state : State) (constraints : gmap string pyval) :
  (forall other : gmap string pyval,
     other !! "max_depth" = constraints !! "max_depth" ->
     forward_search self goal state other
     = forward_search self goal state constraints)
  /\ (forall (pre : list Action) (a : Action) (post : list Action),
        forward_search self goal state constraints
          = Returned (Some (pre ++ a :: post)) ->
        head (get_applicable_actions self (run_actions pre state)) = Some a)
  /\ (forall (n : nat) (a1 : Action) (rest : list Action),
        py_range (max_depth_of constraints) = Returned (S n) ->
        check_goal goal state = false ->
        get_applicable_actions self state = a1 :: rest ->
        check_goal goal (apply_action a1 state) = true ->
        forward_search self goal state constraints = Returned (Some [a1])).
Proof.
  split; [|split].
  - intros other Ho. by apply forward_search_depth_only.
  - intros pre a post Hfs.
    apply forward_search_returned in Hfs as (n & _ & Hres).
    apply search_result_path in Hres as (Hpath & _ & _).
    by apply greedy_path_split in Hpath as [_ Hhd].
  - intros n a1 rest Hr Hs Ha Hg. unfold forward_search. rewrite Hr. f_equal.
    by apply (search_one_step _ _ _ _ _ rest).
Qed.

(** Scenario C with the dearer action registered first. *)
Lemma first_applicable_wins_witness :
  get_applicable_actions two_prices ∅ = [expensive; cheap]
  /\ forward_search two_prices finish ∅ lowest_cost = Returned (Some [expensive]).
Proof.
  split; [vm_compute; reflexivity|].
  apply (proj2 (proj2 (first_applicable_wins two_prices finish ∅ lowest_cost))
           9%nat expensive [cheap]);
    vm_compute; reflexivity.
Defined.

(** With an applicable action that leads nowhere registered before them,
    neither of the two is ever chosen. *)
Example noise_comes_first :
  get_applicable_actions three_prices ∅ = [noise; expensive; cheap]
  /\ forward_search three_prices finish ∅ lowest_cost = Returned None.
Proof. split; vm_compute; reflexivity. Qed.

(** X1.  When [range(max_depth)] has [n] elements, [_forward_search] returns
    a plan exactly when that plan is the path of first applicable actions
    from the start state, stopped at the first state that meets the goal,
    and it has at most [n] actions.  The search never returns any other
    sequence, whatever else would reach the goal. *)
Theorem forward_search_greedy (self : SymbolicPlanner) (goal : Goal)
    (state : State) (constraints : gmap string pyval) (n : nat)
    (acts : list Action) :
  py_range (max_depth_of constraints) = Returned n ->
  forward_search self goal state constraints = Returned (Some acts)
  <-> greedy_path self goal state acts
      /\ check_goal goal (run_actions acts state) = true
      /\ (length acts <= n)%nat.
Proof.
  intros Hr. unfold forward_search. rewrite Hr.
  rewrite <- search_result_path. split; [by intros [= ->]|by intros ->].
Qed.

Lemma forward_search_greedy_witness :
  forward_search blocks hold blocks_start ∅ = Returned (Some [pickup])
  <-> greedy_path blocks hold blocks_start [pickup]
      /\ check_goal hold (run_actions [pickup] blocks_start) = true
      /\ (length [pickup] <= 10)%nat.
Proof.
  apply (forward_search_greedy blocks hold blocks_start ∅ 10 [pickup]).
  vm_compute. reflexivity.
Defined.

(** X2.  Every action of a returned plan is registered, has all its
    preconditions in the state that the actions before it produce from the
    start state, and is applied to a state that does not meet the goal yet:
    the plan can be carried out step by step and no shorter beginning of it
    reaches the goal. *)
Theorem returned_plan_executable (self : SymbolicPlanner) (goal : Goal)
    (state : State) (constraints : gmap string pyval)
    (pre : list Action) (a : Action) (post : list Action) :
  forward_search self goal state constraints = Returned (Some (pre ++ a :: post)) ->
  a ∈ dict_values (actions self)
  /\ (forall p, p ∈ preconditions a -> p ∈ run_actions pre state)
  /\ check_goal goal (run_actions pre state) = false.
Proof.
  intros Hfs. apply forward_search_returned in Hfs as (n & _ & Hres).
  apply search_result_path in Hres as (Hpath & _ & _).
  apply greedy_path_split in Hpath as [Hg Hhd].
  assert (Hin : a ∈ get_applicable_actions self (run_actions pre state)).
  { destruct (get_applicable_actions _ _) as [|a' rest]; [done|].
    injection Hhd as ->. left. }
  apply get_applicable_actions_elem in Hin as [Hreg Hpre]. by repeat split.
Qed.

Lemma returned_plan_executable_witness :
  pickup ∈ dict_values (actions blocks)
  /\ (forall p, p ∈ preconditions pickup -> p ∈ run_actions [] blocks_start)
  /\ check_goal hold (run_actions [] blocks_start) = false.
Proof.
  apply (returned_plan_executable blocks hold blocks_start ∅ [] pickup []).
  vm_compute. reflexivity.
Defined.

(** X3.  A plan found with one [max_depth] is found with every other one
    that is at least its length, and the same plan; below its length the
    search fails.  So raising [max_depth] never changes or loses a plan. *)
Theorem depth_only_cuts (self : SymbolicPlanner) (goal : Goal)
    (state : State) (c1 c2 : gmap string pyval) (acts : list Action)
    (m : nat) :
  forward_search self goal state c1 = Returned (Some acts) ->
  py_range (max_depth_of c2) = Returned m ->
  forward_search self goal state c2
  = Returned (if bool_decide (length acts <= m)%nat then Some acts else None).
Proof.
  intros Hfs Hm. apply forward_search_returned in Hfs as (n & _ & Hres).
  apply search_result_path in Hres as (Hpath & Hg & _).
  unfold forward_search. rewrite Hm. f_equal. case_bool_decide as Hl.
  - by apply search_result_path.
  - unfold search_from. apply (greedy_path_cut _ _ _ acts); [done|lia].
Qed.

Lemma depth_only_cuts_witness :
  forward_search blocks hold blocks_start no_depth
  = Returned (if bool_decide (length [pickup] <= 0)%nat
              then Some [pickup] else None).
Proof.
  apply (depth_only_cuts blocks hold blocks_start ∅ no_depth [pickup] 0);
    vm_compute; reflexivity.
Defined.

(** ** Searches that cannot move *)

(** X4.  When the range is empty ([max_depth] zero or negative) or no action
    is applicable in the initial state (in particular when nothing is
    registered), the search applies nothing: it returns the empty plan if the
    goal already holds and [None] otherwise. *)
Theorem search_without_progress (self : SymbolicPlanner) (goal : Goal)
    (state : State) (constraints : gmap string pyval) (n : nat) :
  py_range (max_depth_of constraints) = Returned n ->
  n = 0%nat \/ get_applicable_actions self state = [] ->
  forward_search self goal state constraints
  = Returned (if check_goal goal state then Some [] else None).
Proof.
  intros Hr Hcase. unfold forward_search. rewrite Hr. f_equal.
  unfold search_result, search_from.
  destruct n as [|n]; [done|]. destruct Hcase as [?|Hnone]; [done|].
  cbn [search_loop]. destruct (check_goal goal state) eqn:Hg; [done|].
  rewrite Hnone. cbn. by rewrite Hg.
Qed.

Lemma search_without_progress_witness :
  forward_search init want_x ∅ (<[ "max_depth" := PyInt (-3) ]> ∅)
  = Returned (if check_goal want_x ∅ then Some [] else None).
Proof.
  apply (search_without_progress init want_x ∅ _ 0).
  - vm_compute. reflexivity.
  - left. reflexivity.
Defined.

(** X5.  A [max_depth] entry that is neither an integer nor a boolean, the
    value [None] included, makes [create_plan] raise [TypeError], even when
    the goal holds in the initial state; the default of 10 only stands in for
    a missing key. *)
Theorem non_integer_depth_raises (self : SymbolicPlanner) (goal : Goal)
    (initial_state : State) (constraints : gmap string pyval)
    (uuid_hex : string) (v : pyval) :
  constraints !! "max_depth" = Some v ->
  (forall z, v ≠ PyInt z) ->
  (forall b, v ≠ PyBool b) ->
  create_plan self goal initial_state (Some constraints) uuid_hex
  = Raised TypeError.
Proof.
  intros Hv Hz Hb. unfold create_plan, forward_search, max_depth_of. cbn.
  rewrite Hv. cbn. destruct v as [|b|z|q|s]; cbn; try done.
  - by destruct (Hb b).
  - by destruct (Hz z).
Qed.

Lemma non_integer_depth_raises_witness :
  create_plan blocks hand_free blocks_start
    (Some (<[ "max_depth" := PyNone ]> ∅)) "a"
  = Raised TypeError.
Proof.
  apply (non_integer_depth_raises blocks hand_free blocks_start _ "a" PyNone);
    [vm_compute; reflexivity|discriminate|discriminate].
Defined.

(** ** Applying effects *)

Lemma apply_effects_last_word (es : list string) :
  forall (state : State) (f : string),
    f ∈ fold_left apply_effect es state
    <-> match last_word es f with
        | Some b => b = true
        | None => f ∈ state
        end.
Proof.
  induction es as [|e es IH]; intros state f; [done|].
  cbn [fold_left last_word]. rewrite IH.
  destruct (last_word es f) as [b|]; [done|].
  unfold apply_effect. destruct (is_negative e).
  - rewrite elem_of_difference, not_elem_of_singleton.
    case_bool_decide as Heq.
    + split; [intros [_ Hne]; by destruct Hne|done].
    + split; [by intros [? _]|]. intros Hin. split; [done|congruence].
  - rewrite elem_of_union, elem_of_singleton.
    case_bool_decide as Heq.
    + split; [done|]. intros _. by right.
    + split; [|by left]. intros [?|?]; [done|congruence].
Qed.

Lemma last_word_unnamed (es : list string) (f : string) :
  f ∉ es -> negated f ∉ es -> last_word es f = None.
Proof.
  induction es as [|e es IH]; intros Hf Hn; [done|].
  apply not_elem_of_cons in Hf as [Hfe Hf].
  apply not_elem_of_cons in Hn as [Hne Hn].
  cbn [last_word]. rewrite (IH Hf Hn). destruct (is_negative e) eqn:E.
  - case_bool_decide as Heq; [|done]. exfalso. apply Hne.
    rewrite <- Heq. symmetry. by apply is_negative_inv.
  - case_bool_decide; [|done]. by subst.
Qed.

(** X6.  [_apply_action] lets the last effect that names a fact decide: the
    fact is in the new state exactly when that effect adds it, and a fact
    that no effect names, neither as itself nor with the [NOT_] prefix, is in
    the new state exactly when it was in the old one. *)
Theorem later_effect_wins (action : Action) (state : State) (f : string) :
  (f ∈ apply_action action state
   <-> match last_word (effects action) f with
       | Some b => b = true
       | None => f ∈ state
       end)
  /\ (f ∉ effects action -> negated f ∉ effects action ->
      (f ∈ apply_action action state <-> f ∈ state)).
Proof.
  split; [apply apply_effects_last_word|].
  intros Hf Hn. unfold apply_action.
  by rewrite apply_effects_last_word, (last_word_unnamed _ _ Hf Hn).
Qed.

(** X7.  Applying an action a second time changes nothing. *)
Theorem apply_action_idempotent (action : Action) (state : State) :
  apply_action action (apply_action action state) = apply_action action state.
Proof.
  apply set_eq. intros f. unfold apply_action.
  rewrite (apply_effects_last_word _ (fold_left apply_effect (effects action) state)).
  destruct (last_word (effects action) f) eqn:E; [|done].
  by rewrite apply_effects_last_word, E.
Qed.

Lemma apply_action_mono (action : Action) (s s' : State) :
  s ⊆ s' -> apply_action action s ⊆ apply_action action s'.
Proof.
  intros Hsub f. unfold apply_action. rewrite !apply_effects_last_word.
  destruct (last_word (effects action) f); [done|]. apply Hsub.
Qed.

Lemma run_actions_mono (acts : list Action) :
  forall s s' : State, s ⊆ s' -> run_actions acts s ⊆ run_actions acts s'.
Proof.
  induction acts as [|a acts IH]; intros s s' Hsub; [done|].
  cbn. by apply IH, apply_action_mono.
Qed.

(** X8.  Larger states only help: an action applicable in a state is
    applicable in every state that contains it, and a sequence of actions
    that reaches the goal from a state reaches it from every larger state,
    the state reached being larger as well. *)
Theorem larger_state_keeps_plan (goal : Goal) (acts : list Action)
    (action : Action) (s s' : State) :
  s ⊆ s' ->
  (applicable s action = true -> applicable s' action = true)
  /\ run_actions acts s ⊆ run_actions acts s'
  /\ (check_goal goal (run_actions acts s) = true ->
      check_goal goal (run_actions acts s') = true).
Proof.
  intros Hsub. split; [|split].
  - rewrite !applicable_spec. intros H p Hp. by apply Hsub, H.
  - by apply run_actions_mono.
  - rewrite !check_goal_spec. intros H c Hc.
    by apply (run_actions_mono acts s s' Hsub), H.
Qed.

Lemma larger_state_keeps_plan_witness :
  (applicable blocks_start pickup = true ->
   applicable (blocks_start ∪ {[ "x" ]}) pickup = true)
  /\ run_actions [pickup] blocks_start
     ⊆ run_actions [pickup] (blocks_start ∪ {[ "x" ]})
  /\ (check_goal hold (run_actions [pickup] blocks_start) = true ->
      check_goal hold (run_actions [pickup] (blocks_start ∪ {[ "x" ]})) = true).
Proof.
  apply (larger_state_keeps_plan hold [pickup] pickup blocks_start
           (blocks_start ∪ {[ "x" ]})).
  apply (bool_decide_unpack _). vm_compute. reflexivity.
Defined.

(** ** Registering again *)

Lemma dict_set_twice {V : Type} (d : list (string * V)) (k : string) (v w : V) :
  dict_set k w (dict_set k v d) = dict_set k w d.
Proof.
  induction d as [|[k' v'] d IH]; cbn.
  - by rewrite String.eqb_refl.
  - destruct (String.eqb k k') eqn:E; cbn.
    + by rewrite String.eqb_refl.
    + by rewrite E, IH.
Qed.

Lemma dict_get_set {V : Type} (d : list (string * V)) (k k' : string) (v : V) :
  dict_get k' (dict_set k v d)
  = if String.eqb k' k then Some v else dict_get k' d.
Proof.
  destruct (String.eqb k' k) eqn:E.
  - apply String.eqb_eq in E as ->. apply dict_get_set_eq.
  - apply dict_get_set_ne. by apply String.eqb_neq.
Qed.

(** X9.  The last registration under an identifier is the one that counts:
    registering twice under the same identifier leaves the planner as the
    second registration alone would; and registrations under two different
    identifiers give the same definitions in whichever order they are made
    (only the iteration order may differ). *)
Theorem last_registration_counts (self : SymbolicPlanner) (id1 id2 : string)
    (a b : Action) :
  register_action (register_action self id1 a).2 id1 b
  = register_action self id1 b
  /\ (id1 ≠ id2 ->
      forall k,
        dict_get k (actions (register_action (register_action self id1 a).2 id2 b).2)
        = dict_get k (actions (register_action (register_action self id2 b).2 id1 a).2)).
Proof.
  split.
  - unfold register_action. cbn. by rewrite dict_set_twice.
  - intros Hne k. cbn. rewrite !dict_get_set.
    destruct (String.eqb k id2) eqn:E2, (String.eqb k id1) eqn:E1; try done.
    apply String.eqb_eq in E1, E2. congruence.
Qed.

(** ** Storing, reading and starting a plan *)

Lemma new_plan_size (plan_id : string) (goal : Goal) (initial_state : State)
    (acts : list Action) :
  size (new_plan plan_id goal initial_state acts) = 6%nat.
Proof.
  unfold new_plan.
  rewrite !map_size_insert_None by (by simplify_map_eq).
  by rewrite map_size_empty.
Qed.

(** X10.  A plan that [create_plan] has just stored is read back by
    [get_plan] under the returned identifier, with that identifier, the goal,
    the initial state, the actions the search found, status [PENDING] and
    step 0 and nothing else, and [get_plan_status] returns [PENDING]. *)
Theorem create_then_get (self : SymbolicPlanner) (goal : Goal)
    (initial_state : State) (constraints : option (gmap string pyval))
    (uuid_hex plan_id : string) (self' : SymbolicPlanner) :
  create_plan self goal initial_state constraints uuid_hex
    = Returned (Some plan_id, self') ->
  plan_id = "plan-" +:+ uuid_hex
  /\ get_plan_status self' plan_id = Found (Some (VStatus PENDING))
  /\ exists (plan : Plan) (acts : list Action),
       get_plan self' plan_id = Some plan
       /\ forward_search self goal initial_state (default ∅ constraints)
          = Returned (Some acts)
       /\ plan !! "plan_id" = Some (VStr plan_id)
       /\ plan !! "goal" = Some (VGoal goal)
       /\ plan !! "initial_state" = Some (VState initial_state)
       /\ plan !! "actions" = Some (VActions acts)
       /\ plan !! "status" = Some (VStatus PENDING)
       /\ plan !! "current_step" = Some (VInt 0)
       /\ size plan = 6%nat.
Proof.
  intros H. apply create_plan_success in H as (acts & Hs & -> & ->).
  split; [done|].
  pose proof (new_plan_fields ("plan-" +:+ uuid_hex) goal initial_state acts)
    as (H1 & H2 & H3 & H4 & H5 & H6).
  pose proof (new_plan_size ("plan-" +:+ uuid_hex) goal initial_state acts) as Hn.
  split.
  - unfold get_plan_status. cbn [plans]. rewrite lookup_insert_eq, Hn.
    cbn zeta in H5. by rewrite H5.
  - eexists _, acts. unfold get_plan. cbn [plans].
    split; [apply lookup_insert_eq|]. by repeat split.
Qed.

Lemma create_then_get_witness :
  "plan-0123456789ab" = "plan-" +:+ "0123456789ab"
  /\ get_plan_status blocks_planned "plan-0123456789ab"
     = Found (Some (VStatus PENDING))
  /\ exists (plan : Plan) (acts : list Action),
       get_plan blocks_planned "plan-0123456789ab" = Some plan
       /\ forward_search blocks hold blocks_start (default ∅ None)
          = Returned (Some acts)
       /\ plan !! "plan_id" = Some (VStr "plan-0123456789ab")
       /\ plan !! "goal" = Some (VGoal hold)
       /\ plan !! "initial_state" = Some (VState blocks_start)
       /\ plan !! "actions" = Some (VActions acts)
       /\ plan !! "status" = Some (VStatus PENDING)
       /\ plan !! "current_step" = Some (VInt 0)
       /\ size plan = 6%nat.
Proof.
  apply (create_then_get blocks hold blocks_start None "0123456789ab").
  vm_compute. reflexivity.
Defined.

(** X11.  [create_plan] never touches the action registry nor a plan stored
    under another identifier, and a search that finds no plan leaves the whole
    planner as it was. *)
Theorem create_plan_frame (self : SymbolicPlanner) (goal : Goal)
    (initial_state : State) (constraints : option (gmap string pyval))
    (uuid_hex : string) (r : option string) (self' : SymbolicPlanner) :
  create_plan self goal initial_state constraints uuid_hex = Returned (r, self') ->
  actions self' = actions self
  /\ (forall other, other ≠ "plan-" +:+ uuid_hex ->
        get_plan self' other = get_plan self other)
  /\ (r = None -> self' = self).
Proof.
  unfold create_plan, get_plan.
  destruct (forward_search _ _ _ _) as [[acts|]|e]; [| |done].
  - intros [= <- <-]. cbn. split; [done|]. split; [|done].
    intros other Hne. by apply lookup_insert_ne.
  - by intros [= <- <-].
Qed.

Lemma create_plan_frame_witness :
  actions blocks_planned = actions blocks
  /\ (forall other, other ≠ "plan-" +:+ "0123456789ab" ->
        get_plan blocks_planned other = get_plan blocks other)
  /\ (Some "plan-0123456789ab" = None -> blocks_planned = blocks).
Proof.
  apply (create_plan_frame blocks hold blocks_start None "0123456789ab").
  vm_compute. reflexivity.
Defined.

(** X12.  Starting a plan twice is the same as starting it once: the second
    [execute_plan] returns what the first returned and leaves the planner as
    the first left it. *)
Theorem execute_plan_idempotent (self : SymbolicPlanner) (plan_id : string) :
  execute_plan (execute_plan self plan_id).2 plan_id = execute_plan self plan_id.
Proof.
  destruct (plans self !! plan_id) as [plan|] eqn:E.
  - rewrite (execute_plan_known _ _ _ E). cbn [snd].
    erewrite execute_plan_known by (cbn; apply lookup_insert_eq).
    cbn. by rewrite !insert_insert_eq.
  - rewrite (execute_plan_unknown _ _ E). cbn. by apply execute_plan_unknown.
Qed.

(** X13.  A plan that was just created can be started: [execute_plan]
    returns [True], [get_plan_status] then returns [IN_PROGRESS], and
    [get_plan] still gives the actions that the search found. *)
Theorem create_then_execute (self : SymbolicPlanner) (goal : Goal)
    (initial_state : State) (constraints : option (gmap string pyval))
    (uuid_hex plan_id : string) (self' : SymbolicPlanner) :
  create_plan self goal initial_state constraints uuid_hex
    = Returned (Some plan_id, self') ->
  (execute_plan self' plan_id).1 = true
  /\ get_plan_status (execute_plan self' plan_id).2 plan_id
     = Found (Some (VStatus IN_PROGRESS))
  /\ exists (plan : Plan) (acts : list Action),
       get_plan (execute_plan self' plan_id).2 plan_id = Some plan
       /\ plan !! "actions" = Some (VActions acts)
       /\ forward_search self goal initial_state (default ∅ constraints)
          = Returned (Some acts).
Proof.
  intros H. apply create_plan_success in H as (acts & Hs & -> & ->).
  set (pid := "plan-" +:+ uuid_hex).
  erewrite execute_plan_known by (cbn; apply lookup_insert_eq).
  cbn [fst snd]. split; [done|]. split.
  - unfold get_plan_status. cbn [plans]. rewrite lookup_insert_eq.
    rewrite map_size_insert_Some by (unfold new_plan; by simplify_map_eq).
    rewrite new_plan_size. by rewrite lookup_insert_eq.
  - eexists _, acts. unfold get_plan. cbn [plans].
    split; [apply lookup_insert_eq|]. split; [|done].
    rewrite lookup_insert_ne by done.
    by destruct (new_plan_fields pid goal initial_state acts) as (_ & _ & _ & ? & _).
Qed.

Lemma create_then_execute_witness :
  (execute_plan blocks_planned "plan-0123456789ab").1 = true
  /\ get_plan_status (execute_plan blocks_planned "plan-0123456789ab").2
       "plan-0123456789ab"
     = Found (Some (VStatus IN_PROGRESS))
  /\ exists (plan : Plan) (acts : list Action),
       get_plan (execute_plan blocks_planned "plan-0123456789ab").2
         "plan-0123456789ab" = Some plan
       /\ plan !! "actions" = Some (VActions acts)
       /\ forward_search blocks hold blocks_start (default ∅ None)
          = Returned (Some acts).
Proof.
  apply (create_then_execute blocks hold blocks_start None "0123456789ab").
  vm_compute. reflexivity.
Defined.

(** ** What the methods keep true *)

Lemma note_key_step_NoDup (seen : list string) (k : string) :
  NoDup seen -> NoDup (note_key seen k).
Proof. intros Hnd. by apply (note_key_NoDup [k] seen). Qed.

Lemma new_plan_well_formed (self : SymbolicPlanner) (goal : Goal)
    (initial_state : State) (constraints : gmap string pyval)
    (acts : list Action) (plan_id : string) :
  forward_search self goal initial_state constraints = Returned (Some acts) ->
  plan_well_formed plan_id (new_plan plan_id goal initial_state acts).
Proof.
  intros Hs. exists goal, initial_state, acts, PENDING.
  destruct (new_plan_fields plan_id goal initial_state acts)
    as (H1 & H2 & H3 & H4 & H5 & H6).
  repeat split; try done; [by left|by apply forward_search_sound in Hs].
Qed.

Lemma started_plan_well_formed (plan_id : string) (plan : Plan) :
  plan_well_formed plan_id plan ->
  plan_well_formed plan_id (<["status" := VStatus IN_PROGRESS]> plan).
Proof.
  intros (goal & s & acts & st & H1 & H2 & H3 & H4 & _ & _ & H6 & H7).
  exists goal, s, acts, IN_PROGRESS.
  rewrite lookup_insert_eq, !lookup_insert_ne by done.
  repeat split; try done. by right.
Qed.

Lemma reachable_ok (self : SymbolicPlanner) : reachable self -> planner_ok self.
Proof.
  induction 1 as [|self k a _ [Hnd Hwf]
                  |self goal s cons uuid r self' _ [Hnd Hwf] Hc
                  |self pid _ [Hnd Hwf]].
  - split; [apply NoDup_nil_2|]. intros pid plan. unfold get_plan. cbn.
    by rewrite lookup_empty.
  - split; [|done].
    change (actions (register_action self k a).2)
      with (dict_set k a (actions self)).
    rewrite dict_keys_set. by apply note_key_step_NoDup.
  - destruct r as [pid|].
    + apply create_plan_success in Hc as (acts & Hs & -> & ->).
      split; [done|]. intros pid plan. unfold get_plan. cbn.
      destruct (decide (pid = "plan-" +:+ uuid)) as [ -> |Hne].
      * rewrite lookup_insert_eq. intros [= <-].
        by apply (new_plan_well_formed self _ _ (default ∅ cons)).
      * rewrite lookup_insert_ne by done. apply Hwf.
    + unfold create_plan in Hc.
      destruct (forward_search _ _ _ _) as [[acts|]|e]; [done| |done].
      by injection Hc as <-.
  - destruct (plans self !! pid) as [plan|] eqn:E.
    + rewrite (execute_plan_known _ _ _ E). split; [done|].
      intros pid' plan'. unfold get_plan. cbn.
      destruct (decide (pid' = pid)) as [ -> |Hne].
      * rewrite lookup_insert_eq. intros [= <-].
        by apply started_plan_well_formed, Hwf.
      * rewrite lookup_insert_ne by done. apply Hwf.
    + by rewrite (execute_plan_unknown _ _ E).
Qed.

Lemma new_plan_complete (plan_id : string) (goal : Goal)
    (initial_state : State) (acts : list Action) :
  record_complete plan_id (new_plan plan_id goal initial_state acts).
Proof.
  destruct (new_plan_fields plan_id goal initial_state acts)
    as (H1 & H2 & H3 & H4 & H5 & H6).
  split; [done|]. split; [exists PENDING; split; [done|by left]|].
  split; [done|]. split; [by exists goal, initial_state, acts|].
  unfold new_plan. rewrite !dom_insert_L, dom_empty_L. set_solver.
Qed.

Lemma started_plan_complete (plan_id : string) (plan : Plan) :
  record_complete plan_id plan ->
  record_complete plan_id (<["status" := VStatus IN_PROGRESS]> plan).
Proof.
  intros (H1 & _ & H3 & (goal & s & acts & H4 & H5 & H6) & Hdom).
  unfold record_complete. rewrite lookup_insert_eq, !lookup_insert_ne by done.
  split; [done|]. split; [exists IN_PROGRESS; split; [done|by right]|].
  split; [done|]. split; [by exists goal, s, acts|].
  rewrite dom_insert_L, Hdom. set_solver.
Qed.

Lemma shared_record_complete (plan_id : string) (plan plan' : Plan) :
  record_complete plan_id plan ->
  record_shared plan plan' ->
  record_complete plan_id plan'.
Proof.
  intros (H1 & (st & H2 & Hst) & H3 & (goal & s & acts & H4 & H5 & H6) & Hdom)
         (Hd & Hsame & Hg & Hs & Ha).
  assert (Hkey : forall key, key ≠ "goal" -> key ≠ "initial_state" ->
                             key ≠ "actions" -> plan' !! key = plan !! key).
  { intros key ? ? ?. apply Hsame. unfold shared_keys.
    rewrite !not_elem_of_cons. repeat split; try done. apply not_elem_of_nil. }
  split; [by rewrite Hkey|].
  split; [exists st; by rewrite Hkey|].
  split; [by rewrite Hkey|].
  split; [|by rewrite Hd].
  destruct (Hg _ H4) as [goal' ?]. destruct (Hs _ H5) as [s' ?].
  destruct (Ha _ H6) as (acts' & ? & _). by exists goal', s', acts'.
Qed.

Lemma reachable_sharing_complete (self : SymbolicPlanner) :
  reachable_sharing self ->
  NoDup (dict_keys (actions self))
  /\ forall plan_id plan,
       plans self !! plan_id = Some plan -> record_complete plan_id plan.
Proof.
  induction 1 as [|self k a _ [Hnd Hwf]
                  |self goal s cons uuid r self' _ [Hnd Hwf] Hc
                  |self pid _ [Hnd Hwf]
                  |self self' _ [Hnd Hwf] (Hkeys & Hdom & Hrec)].
  - split; [apply NoDup_nil_2|]. intros pid plan. cbn. by rewrite lookup_empty.
  - split; [|done].
    change (actions (register_action self k a).2)
      with (dict_set k a (actions self)).
    rewrite dict_keys_set. by apply note_key_step_NoDup.
  - destruct r as [pid|].
    + apply create_plan_success in Hc as (acts & Hs & -> & ->).
      split; [done|]. intros pid plan. cbn.
      destruct (decide (pid = "plan-" +:+ uuid)) as [ -> |Hne].
      * rewrite lookup_insert_eq. intros [= <-]. apply new_plan_complete.
      * rewrite lookup_insert_ne by done. apply Hwf.
    + unfold create_plan in Hc.
      destruct (forward_search _ _ _ _) as [[acts|]|e]; [done| |done].
      by injection Hc as <-.
  - destruct (plans self !! pid) as [plan|] eqn:E.
    + rewrite (execute_plan_known _ _ _ E). split; [done|].
      intros pid' plan'. cbn.
      destruct (decide (pid' = pid)) as [ -> |Hne].
      * rewrite lookup_insert_eq. intros [= <-].
        by apply started_plan_complete, Hwf.
      * rewrite lookup_insert_ne by done. apply Hwf.
    + by rewrite (execute_plan_unknown _ _ E).
  - split; [by rewrite Hkeys|]. intros pid plan' Hp'.
    assert (Hin : is_Some (plans self !! pid)).
    { apply elem_of_dom. rewrite <- Hdom. apply elem_of_dom. by eexists. }
    destruct Hin as [plan Hp].
    apply (shared_record_complete pid plan plan'); [by apply Hwf|].
    by apply (Hrec pid).
Qed.

(** X14.  Whatever sequence of [register_action], [create_plan] and
    [execute_plan] calls is made on a new planner, and whatever the caller
    does in between to the goal, state and action objects that it shares with
    the planner, the registry has no identifier twice and every stored record
    has exactly the six entries of [create_plan]: its own identifier, a goal,
    an initial state, a list of actions, a status that is [PENDING] or
    [IN_PROGRESS], and step 0.  The methods never set [COMPLETED] or [FAILED]
    and never advance [current_step].  Nothing is said of the contents of the
    goal, the state and the actions, which the caller can change. *)
Theorem methods_keep_plans_well_formed (self : SymbolicPlanner)
    (plan_id : string) (plan : Plan) :
  reachable_sharing self ->
  get_plan self plan_id = Some plan ->
  NoDup (dict_keys (actions self))
  /\ plan !! "plan_id" = Some (VStr plan_id)
  /\ (exists st, plan !! "status" = Some (VStatus st)
                 /\ (st = PENDING \/ st = IN_PROGRESS))
  /\ plan !! "current_step" = Some (VInt 0)
  /\ (exists (goal : Goal) (initial_state : State) (acts : list Action),
        plan !! "goal" = Some (VGoal goal)
        /\ plan !! "initial_state" = Some (VState initial_state)
        /\ plan !! "actions" = Some (VActions acts))
  /\ dom plan = {[ "plan_id"; "goal"; "initial_state"; "actions"; "status";
                   "current_step" ]}.
Proof.
  intros Hr Hp. destruct (reachable_sharing_complete self Hr) as [Hnd Hwf].
  split; [done|]. by apply (Hwf plan_id plan).
Qed.

Lemma methods_keep_plans_well_formed_witness :
  NoDup (dict_keys (actions blocks_planned))
  /\ blocks_record !! "plan_id" = Some (VStr "plan-0123456789ab")
  /\ (exists st, blocks_record !! "status" = Some (VStatus st)
                 /\ (st = PENDING \/ st = IN_PROGRESS))
  /\ blocks_record !! "current_step" = Some (VInt 0)
  /\ (exists (goal : Goal) (initial_state : State) (acts : list Action),
        blocks_record !! "goal" = Some (VGoal goal)
        /\ blocks_record !! "initial_state" = Some (VState initial_state)
        /\ blocks_record !! "actions" = Some (VActions acts))
  /\ dom blocks_record = {[ "plan_id"; "goal"; "initial_state"; "actions"; "status";
                   "current_step" ]}.
Proof.
  apply (methods_keep_plans_well_formed blocks_planned "plan-0123456789ab").
  - apply (share_create blocks hold blocks_start None "0123456789ab"
             (Some "plan-0123456789ab"));
      [apply share_register, share_init|vm_compute; reflexivity].
  - vm_compute. reflexivity.
Defined.

(** The caller's changes are among the histories: after the goal object has
    received a further condition and the state set has been emptied, the
    planner is still one of those above, and the stored actions no longer
    lead from the stored state to the stored goal. *)
Example drifted_plan_is_covered :
  caller_mutation blocks_planned blocks_drifted
  /\ reachable_sharing blocks_drifted
  /\ check_goal hold_more (run_actions [pickup] ∅) = false.
Proof.
  assert (Hm : caller_mutation blocks_planned blocks_drifted).
  { split; [done|].
    split; [unfold blocks_planned, blocks_drifted; cbn [plans];
            by rewrite !dom_singleton_L|].
    intros pid plan plan' Hp Hp'. cbn in Hp, Hp'.
    apply lookup_singleton_Some in Hp as [<- <-].
    apply lookup_singleton_Some in Hp' as [_ <-].
    split; [|split; [|split; [|split]]].
    - rewrite !dom_insert_L. unfold new_plan.
      rewrite !dom_insert_L, dom_empty_L. set_solver.
    - intros key Hk. unfold shared_keys in Hk.
      rewrite !not_elem_of_cons in Hk. destruct Hk as (? & ? & ? & _).
      by rewrite !lookup_insert_ne.
    - intros g _. by exists hold_more.
    - intros s _. by exists ∅.
    - intros acts Ha. exists acts. split; [|done].
      by rewrite !lookup_insert_ne. }
  split; [done|]. split; [|vm_compute; reflexivity].
  apply (share_mutate blocks_planned); [|done].
  apply (share_create blocks hold blocks_start None "0123456789ab"
           (Some "plan-0123456789ab"));
    [apply share_register, share_init|vm_compute; reflexivity].
Qed.

(** X15.  On a planner that only the methods have acted on,
    [get_plan_status] never raises: it returns [None] exactly for the
    identifiers that [get_plan] does not know, and otherwise [PENDING] or
    [IN_PROGRESS]. *)
Theorem get_plan_status_total (self : SymbolicPlanner) (plan_id : string) :
  reachable self ->
  (get_plan self plan_id = None /\ get_plan_status self plan_id = Found None)
  \/ (is_Some (get_plan self plan_id)
      /\ exists st, (st = PENDING \/ st = IN_PROGRESS)
                    /\ get_plan_status self plan_id = Found (Some (VStatus st))).
Proof.
  intros Hr. destruct (reachable_ok self Hr) as [_ Hwf].
  unfold get_plan_status, get_plan in *.
  destruct (plans self !! plan_id) as [plan|] eqn:E; [right|by left].
  split; [done|].
  destruct (Hwf plan_id plan E) as (_ & _ & _ & st & _ & _ & _ & _ & H5 & H6 & _).
  exists st. split; [done|].
  destruct (size plan) eqn:Hsz.
  - apply map_size_empty_iff in Hsz. subst plan. by rewrite lookup_empty in H5.
  - by rewrite H5.
Qed.

Lemma get_plan_status_total_witness :
  (get_plan blocks_planned "nowhere" = None
   /\ get_plan_status blocks_planned "nowhere" = Found None)
  \/ (is_Some (get_plan blocks_planned "nowhere")
      /\ exists st, (st = PENDING \/ st = IN_PROGRESS)
                    /\ get_plan_status blocks_planned "nowhere"
                       = Found (Some (VStatus st))).
Proof.
  apply (get_plan_status_total blocks_planned "nowhere").
  apply (reach_create blocks hold blocks_start None "0123456789ab"
           (Some "plan-0123456789ab"));
    [apply reach_register, reach_init|vm_compute; reflexivity].
Defined.

(** ** Printing a planner *)






Example repr_blocks_planned :
  repr blocks_planned = "SymbolicPlanner(actions=1, plans=1)".
Proof. vm_compute. reflexivity. Qed.

(** ** Registering a new action beside the old ones *)

Lemma dict_values_set_absent {V : Type} (d : list (string * V)) (k : string)
    (v : V) :
  k ∉ dict_keys d -> dict_values (dict_set k v d) = dict_values d ++ [v].
Proof.
  induction d as [|[k' v'] d IH]; cbn; intros Hin; [done|].
  apply not_elem_of_cons in Hin as [Hne Hin].
  apply String.eqb_neq in Hne as ->. cbn. f_equal. by apply IH.
Qed.

Lemma applicable_after_new (self : SymbolicPlanner) (k : string) (a : Action)
    (state : State) :
  k ∉ dict_keys (actions self) ->
  get_applicable_actions (register_action self k a).2 state
  = get_applicable_actions self state
    ++ (if applicable state a then [a] else []).
Proof.
  intros Hk. unfold get_applicable_actions. cbn [register_action snd actions].
  rewrite (dict_values_set_absent _ _ _ Hk), filter_app. f_equal.
  rewrite filter_cons, filter_nil. destruct (applicable state a); by case_decide.
Qed.

Lemma greedy_path_after_new (self : SymbolicPlanner) (k : string) (a : Action)
    (goal : Goal) (acts : list Action) :
  k ∉ dict_keys (actions self) ->
  forall cur : State,
    greedy_path self goal cur acts ->
    greedy_path (register_action self k a).2 goal cur acts.
Proof.
  intros Hk. induction acts as [|b rest IH]; intros cur Hpath; [done|].
  destruct Hpath as (Hg & Hhd & Hpath). split; [done|]. split; [|by apply IH].
  rewrite (applicable_after_new _ _ _ _ Hk).
  by destruct (get_applicable_actions self cur).
Qed.

(** X17.  Earlier registrations have precedence: registering an action under
    an identifier that is not yet in use never changes a plan that the search
    finds, since the new action is only tried where no older one applies. *)
Theorem new_action_keeps_plan (self : SymbolicPlanner) (action_id : string)
    (action : Action) (goal : Goal) (state : State)
    (constraints : gmap string pyval) (acts : list Action) :
  action_id ∉ dict_keys (actions self) ->
  forward_search self goal state constraints = Returned (Some acts) ->
  forward_search (register_action self action_id action).2 goal state constraints
  = Returned (Some acts).
Proof.
  intros Hk Hfs. apply forward_search_returned in Hfs as (n & Hr & Hres).
  apply search_result_path in Hres as (Hpath & Hg & Hl).
  unfold forward_search. rewrite Hr. f_equal. apply search_result_path.
  split; [by apply greedy_path_after_new|done].
Qed.

Lemma new_action_keeps_plan_witness :
  forward_search (register_action blocks "cheap" cheap).2 hold blocks_start ∅
  = Returned (Some [pickup]).
Proof.
  apply (new_action_keeps_plan blocks "cheap" cheap hold blocks_start ∅ [pickup]).
  - apply (bool_decide_unpack _). vm_compute. reflexivity.
  - vm_compute. reflexivity.
Defined.
